(** * Hospital management API: shallow embedding and verified properties

    The development follows the layout of the Django application
    [hms_api]:

    - [models.py]      : the tables, the [post_save] receivers on [User];
    - [permissions.py] : the four permission classes;
    - [serializers.py] : input validation and object creation;
    - [views.py]       : the exception handler and the request handlers;
    - [urls.py]        : the routes.

    The database is a record of tables, each table a list of rows in
    insertion order.  Python code that may raise is embedded in an
    exception-and-state monad [M]; writes made before an exception stay in
    the database (Django's default autocommit mode).  The behaviour of the
    framework the application is written against (Django's ORM and REST
    framework's generic views) is embedded only as far as the application's
    own code calls into it; those definitions are marked "framework". *)

From Stdlib Require Import ZArith List String Ascii Bool Lia.
From Stdlib Require Import Permutation Sorted.
From Stdlib Require Import Decimal DecimalString DecimalN.
Import ListNotations.

Local Open Scope string_scope.
Local Open Scope Z_scope.

Set Implicit Arguments.

(* ================================================================== *)
(** * models.py *)
(* ================================================================== *)

(** [Profile.USER_ROLES]: the two choices of the [role] column. *)
Inductive Role := doctor | admin.

Definition Role_eqb (a b : Role) : bool :=
  match a, b with
  | doctor, doctor | admin, admin => true
  | _, _ => false
  end.

(** The stored value of each choice, and the parser a [ChoiceField] over
    [USER_ROLES] applies to its input. *)
Definition role_value (r : Role) : string :=
  match r with doctor => "doctor" | admin => "admin" end.

Definition USER_ROLES : list Role := [doctor; admin].

Definition role_of_choice (s : string) : option Role :=
  find (fun r => String.eqb s (role_value r)) USER_ROLES.

(** [Patient.GENDER_CHOICES]. *)
Inductive Gender := Male | Female | Other.

Definition gender_value (g : Gender) : string :=
  match g with Male => "Male" | Female => "Female" | Other => "Other" end.

Definition GENDER_CHOICES : list Gender := [Male; Female; Other].

Definition gender_of_choice (s : string) : option Gender :=
  find (fun g => String.eqb s (gender_value g)) GENDER_CHOICES.

(** [django.contrib.auth.models.User], restricted to the columns the
    application reads.  The password column stands for the stored hash:
    [check_password] is equality with it. *)
Module User.
Record t := mk {
  id : Z;
  username : string;
  email : string;
  password : string;
  is_superuser : bool
}.
End User.

Module Profile.
Record t := mk {
  id : Z;
  user : Z;            (* OneToOneField(User): unique *)
  role : Role
}.
(** [role = CharField(..., default='doctor')] *)
Definition role_default : Role := doctor.
End Profile.

Module Patient.
Record t := mk {
  id : Z;
  name : string;
  age : Z;
  gender : Gender;
  address : string;
  created_by : Z;      (* ForeignKey(User) *)
  created_at : Z       (* auto_now_add *)
}.
End Patient.

Module MedicalRecord.
Record t := mk {
  id : Z;
  patient : Z;         (* ForeignKey(Patient) *)
  symptoms : string;
  diagnosis : string;
  treatment : string;
  created_at : Z       (* auto_now_add *)
}.
End MedicalRecord.

(** [rest_framework.authtoken.models.Token]. *)
Module Token.
Record t := mk {
  key : string;
  user : Z             (* OneToOneField(User) *)
}.
End Token.

Record DB := mkDB {
  users : list User.t;
  profiles : list Profile.t;
  patients : list Patient.t;
  medical_records : list MedicalRecord.t;
  tokens : list Token.t
}.

Definition empty_db : DB := mkDB [] [] [] [] [].

(* ------------------------------------------------------------------ *)
(** ** Exceptions and the monad of database code *)
(* ------------------------------------------------------------------ *)

Definition HTTP_200_OK : Z := 200.
Definition HTTP_201_CREATED : Z := 201.
Definition HTTP_400_BAD_REQUEST : Z := 400.
Definition HTTP_401_UNAUTHORIZED : Z := 401.
Definition HTTP_403_FORBIDDEN : Z := 403.
Definition HTTP_404_NOT_FOUND : Z := 404.
Definition HTTP_500_INTERNAL_SERVER_ERROR : Z := 500.

(** One error of a field: either a message the application wrote, or the
    error code of a message the framework generates ([required],
    [invalid_choice], [does_not_exist], ...). *)
Inductive ErrorDetail :=
| Msg (s : string)
| Code (c : string).

Definition FieldErrors := list (string * list ErrorDetail).

(** The detail of a [ValidationError]: a list of errors when raised with a
    message, a dictionary from field names to lists when raised with a
    dictionary. *)
Inductive ValidationDetail :=
| vlist (errors : list ErrorDetail)
| vdict (errors : FieldErrors).

(** The [code] argument of an [APIException]: the views pass an HTTP status
    constant, the framework's own exceptions a string. *)
Inductive ErrCode :=
| code_int (z : Z)
| code_str (s : string).

Inductive Exception :=
| IntegrityError                       (* django.db.IntegrityError *)
| DoesNotExist (model : string)        (* Model.DoesNotExist, RelatedObjectDoesNotExist *)
| AttributeError (obj attr : string)
| KeyError (key : string)
| Http404 (msg : string)               (* django.http.Http404 *)
| TypeError (msg : string)
| APIError (status_code : Z) (detail : string) (code : ErrCode)
                                       (* rest_framework APIException, string detail *)
| ValidationError (detail : ValidationDetail).
                                       (* rest_framework ValidationError *)

(** framework: [APIException(detail, code)].  [status_code] is a class
    attribute, 500 for the base class; the [code] argument only labels the
    detail. *)
Definition APIException (detail : string) (code : ErrCode) : Exception :=
  APIError HTTP_500_INTERNAL_SERVER_ERROR detail code.

(** framework: [PermissionDenied()] and [NotAuthenticated()]. *)
Definition PermissionDenied : Exception :=
  APIError HTTP_403_FORBIDDEN
    "You do not have permission to perform this action."
    (code_str "permission_denied").

Definition NotAuthenticated : Exception :=
  APIError HTTP_401_UNAUTHORIZED
    "Authentication credentials were not provided."
    (code_str "not_authenticated").

Inductive result (A : Type) :=
| Ok (a : A)
| Raise (e : Exception).
Arguments Raise {A} e.

Definition M (A : Type) : Type := DB -> result A * DB.

Definition ret {A} (a : A) : M A := fun db => (Ok a, db).

Definition raise {A} (e : Exception) : M A := fun db => (Raise e, db).

Definition bind {A B} (c : M A) (k : A -> M B) : M B :=
  fun db =>
    match c db with
    | (Ok a, db') => k a db'
    | (Raise e, db') => (Raise e, db')
    end.

(** [try: c except <e matching handles>: h e] *)
Definition try_except {A} (c : M A) (handles : Exception -> bool)
    (h : Exception -> M A) : M A :=
  fun db =>
    match c db with
    | (Raise e, db') => if handles e then h e db' else (Raise e, db')
    | r => r
    end.

(** A query: reads the database, may raise, writes nothing. *)
Definition query {A} (q : DB -> result A) : M A := fun db => (q db, db).

Declare Scope db_scope.
Delimit Scope db_scope with db.
Notation "x <- c ;; k" := (bind c (fun x => k))
  (at level 100, c at next level, right associativity) : db_scope.
Notation "c ;;; k" := (bind c (fun _ => k))
  (at level 100, right associativity) : db_scope.
Local Open Scope db_scope.

(* ------------------------------------------------------------------ *)
(** ** framework: the ORM calls the application makes *)
(* ------------------------------------------------------------------ *)

(** Primary keys are handed out increasing. *)
Definition next_id (ids : list Z) : Z := 1 + fold_right Z.max 0 ids.

(** [user.profile]: the reverse side of the one-to-one field; raises
    [RelatedObjectDoesNotExist] when the user has no profile row. *)
Definition find_profile (db : DB) (user : Z) : option Profile.t :=
  find (fun p => Profile.user p =? user) (profiles db).

Definition User_profile (db : DB) (u : User.t) : result Profile.t :=
  match find_profile db (User.id u) with
  | Some p => Ok p
  | None => Raise (DoesNotExist "User has no profile.")
  end.

(** [Profile.objects.create(user=..., role=...)]: the insert fails on the
    unique constraint of the one-to-one column. *)
Definition Profile_objects_create (user : Z) (role : Role) : M Profile.t :=
  fun db =>
    if existsb (fun p => Profile.user p =? user) (profiles db)
    then (Raise IntegrityError, db)
    else
      let p := Profile.mk (next_id (map Profile.id (profiles db))) user role in
      (Ok p, mkDB (users db) (profiles db ++ [p]) (patients db)
                  (medical_records db) (tokens db)).

(** [profile.save()] of a row already stored: an update by primary key. *)
Definition Profile_save (p : Profile.t) : M unit :=
  fun db =>
    (Ok tt,
     mkDB (users db)
          (map (fun q => if Profile.id q =? Profile.id p then p else q)
               (profiles db))
          (patients db) (medical_records db) (tokens db)).

(** The two receivers of [post_save] for [User], models.py lines 18-25. *)
Definition create_user_profile (instance : User.t) (created : bool) : M unit :=
  if created
  then _ <- Profile_objects_create (User.id instance) Profile.role_default ;;
       ret tt
  else ret tt.

Definition save_user_profile (instance : User.t) : M unit :=
  p <- query (fun db => User_profile db instance) ;;
  Profile_save p.

(** framework: [post_save.send(sender=User, ...)] calls the receivers in
    the order they were connected. *)
Definition post_save_User (instance : User.t) (created : bool) : M unit :=
  create_user_profile instance created ;;;
  save_user_profile instance.

(** framework: [user.save()] of a new row.  The insert fails on the unique
    constraint of [username]; then [post_save] is sent with
    [created=True]. *)
Definition User_insert (username email password : string)
    (is_superuser : bool) : M User.t :=
  fun db =>
    if existsb (fun u => String.eqb (User.username u) username) (users db)
    then (Raise IntegrityError, db)
    else
      let u := User.mk (next_id (map User.id (users db)))
                       username email password is_superuser in
      (Ok u, mkDB (users db ++ [u]) (profiles db) (patients db)
                  (medical_records db) (tokens db)).

Definition User_save_new (username email password : string)
    (is_superuser : bool) : M User.t :=
  u <- User_insert username email password is_superuser ;;
  post_save_User u true ;;;
  ret u.

(** [User.objects.create_user] and [User.objects.create_superuser]. *)
Definition User_objects_create_user (username email password : string)
  : M User.t :=
  User_save_new username email password false.

Definition User_objects_create_superuser (username email password : string)
  : M User.t :=
  User_save_new username email password true.

(** framework: [user.save()] of a stored row (no column the application
    reads changes): [post_save] is sent with [created=False]. *)
Definition User_save (u : User.t) : M unit :=
  post_save_User u false.

(** [Patient.objects.get(id=...)] *)
Definition find_patient (db : DB) (id : Z) : option Patient.t :=
  find (fun p => Patient.id p =? id) (patients db).

Definition Patient_objects_get (db : DB) (id : Z) : result Patient.t :=
  match find_patient db id with
  | Some p => Ok p
  | None => Raise (DoesNotExist "Patient matching query does not exist.")
  end.

(** [Patient.objects.create(...)], [created_at] set from the clock. *)
Definition Patient_objects_create (name : string) (age : Z) (gender : Gender)
    (address : string) (created_by : Z) (now : Z) : M Patient.t :=
  fun db =>
    let p := Patient.mk (next_id (map Patient.id (patients db)))
                        name age gender address created_by now in
    (Ok p, mkDB (users db) (profiles db) (patients db ++ [p])
                (medical_records db) (tokens db)).

Definition MedicalRecord_objects_create (patient : Z)
    (symptoms diagnosis treatment : string) (now : Z) : M MedicalRecord.t :=
  fun db =>
    let r := MedicalRecord.mk (next_id (map MedicalRecord.id (medical_records db)))
                              patient symptoms diagnosis treatment now in
    (Ok r, mkDB (users db) (profiles db) (patients db)
                (medical_records db ++ [r]) (tokens db)).

(** [Token.objects.get_or_create(user=user)]; [fresh_key] is the random key
    a new token would receive. *)
Definition Token_objects_get_or_create (user : Z) (fresh_key : string)
  : M (Token.t * bool) :=
  fun db =>
    match find (fun t => Token.user t =? user) (tokens db) with
    | Some t => (Ok (t, false), db)
    | None =>
        let t := Token.mk fresh_key user in
        (Ok (t, true), mkDB (users db) (profiles db) (patients db)
                            (medical_records db) (tokens db ++ [t]))
    end.

(** *** [Meta.ordering = ['-created_at']]

    A query set of [Patient] or [MedicalRecord] is returned newest first.
    Rows with equal time stamps keep their table order. *)
Section Ordering.
Variable A : Type.
Variable created_at : A -> Z.

Fixpoint insert_desc (x : A) (l : list A) : list A :=
  match l with
  | [] => [x]
  | y :: l' =>
      if created_at y <? created_at x
      then x :: y :: l'
      else y :: insert_desc x l'
  end.

Definition order_by_created_at_desc (l : list A) : list A :=
  fold_right insert_desc [] l.

Definition newer_first (a b : A) : Prop := created_at b <= created_at a.
End Ordering.

(** [Patient.objects.all()] and [Patient.objects.filter(created_by=user)] *)
Definition Patient_objects_all (db : DB) : list Patient.t :=
  order_by_created_at_desc Patient.created_at (patients db).

Definition Patient_objects_filter_created_by (db : DB) (user : User.t)
  : list Patient.t :=
  order_by_created_at_desc Patient.created_at
    (filter (fun p => Patient.created_by p =? User.id user) (patients db)).

(** [MedicalRecord.objects.filter(patient=patient)] *)
Definition MedicalRecord_objects_filter_patient (db : DB) (patient : Patient.t)
  : list MedicalRecord.t :=
  order_by_created_at_desc MedicalRecord.created_at
    (filter (fun r => MedicalRecord.patient r =? Patient.id patient)
            (medical_records db)).

(* ------------------------------------------------------------------ *)
(** ** Computations that only read *)
(* ------------------------------------------------------------------ *)

Definition result_bind {A B} (c : result A) (k : A -> result B) : result B :=
  match c with
  | Ok a => k a
  | Raise e => Raise e
  end.

Notation "'let?' x := c 'in' k" := (result_bind c (fun x => k))
  (at level 100, x pattern, c at next level, right associativity) : db_scope.

(* ================================================================== *)
(** * permissions.py *)
(* ================================================================== *)

(** [request.user] is a stored user, or [None] for Django's
    [AnonymousUser]. *)
Definition is_authenticated (user : option User.t) : bool :=
  match user with Some _ => true | None => false end.

Definition is_superuser (user : option User.t) : bool :=
  match user with Some u => User.is_superuser u | None => false end.

(** [request.user.profile.role]; [AnonymousUser] has no attribute
    [profile]. *)
Definition profile_role (db : DB) (user : option User.t) : result Role :=
  match user with
  | Some u => let? p := User_profile db u in Ok (Profile.role p)
  | None => Raise (AttributeError "AnonymousUser" "profile")
  end.

(** [request.user.is_superuser or request.user.profile.role == 'admin'] *)
Definition is_superuser_or_admin_role (db : DB) (user : option User.t)
  : result bool :=
  if is_superuser user then Ok true
  else let? r := profile_role db user in Ok (Role_eqb r admin).

(** [x == request.user] for a user reference [x]: model instances are equal
    when their primary keys are. *)
Definition eq_request_user (x : Z) (user : option User.t) : bool :=
  match user with Some u => x =? User.id u | None => false end.

(** The object a permission or a validator receives is dynamically typed. *)
Inductive Obj :=
| PatientObj (p : Patient.t)
| MedicalRecordObj (r : MedicalRecord.t).

(** [obj.created_by] *)
Definition getattr_created_by (obj : Obj) : result Z :=
  match obj with
  | PatientObj p => Ok (Patient.created_by p)
  | MedicalRecordObj _ => Raise (AttributeError "MedicalRecord" "created_by")
  end.

(** [obj.patient] *)
Definition getattr_patient (db : DB) (obj : Obj) : result Patient.t :=
  match obj with
  | MedicalRecordObj r => Patient_objects_get db (MedicalRecord.patient r)
  | PatientObj _ => Raise (AttributeError "Patient" "patient")
  end.

(** framework: the interface [BasePermission]; both methods default to
    [True]. *)
Record Permission := mkPermission {
  has_permission : DB -> option User.t -> result bool;
  has_object_permission : DB -> option User.t -> Obj -> result bool
}.

Definition BasePermission_has_permission (_ : DB) (_ : option User.t)
  : result bool := Ok true.

Definition BasePermission_has_object_permission (_ : DB) (_ : option User.t)
    (_ : Obj) : result bool := Ok true.

(** framework: [rest_framework.permissions.IsAuthenticated] *)
Definition IsAuthenticated : Permission :=
  mkPermission (fun _ user => Ok (is_authenticated user))
               BasePermission_has_object_permission.

(** [IsDoctor], permissions.py lines 3-8 *)
Definition IsDoctor_has_permission (db : DB) (user : option User.t)
  : result bool :=
  if is_authenticated user
  then let? r := profile_role db user in Ok (Role_eqb r doctor)
  else Ok false.

Definition IsDoctor : Permission :=
  mkPermission IsDoctor_has_permission BasePermission_has_object_permission.

(** [IsAdmin], permissions.py lines 10-15 *)
Definition IsAdmin_has_permission (db : DB) (user : option User.t)
  : result bool :=
  if is_authenticated user
  then is_superuser_or_admin_role db user
  else Ok false.

Definition IsAdmin : Permission :=
  mkPermission IsAdmin_has_permission BasePermission_has_object_permission.

(** [IsOwnerOrAdmin], permissions.py lines 17-26 *)
Definition IsOwnerOrAdmin_has_object_permission (db : DB)
    (user : option User.t) (obj : Obj) : result bool :=
  let? adm := is_superuser_or_admin_role db user in
  if adm then Ok true
  else let? c := getattr_created_by obj in Ok (eq_request_user c user).

Definition IsOwnerOrAdmin : Permission :=
  mkPermission BasePermission_has_permission
               IsOwnerOrAdmin_has_object_permission.

(** [IsPatientRecordOwnerOrAdmin], permissions.py lines 28-46 *)
Definition IsPatientRecordOwnerOrAdmin_has_object_permission (db : DB)
    (user : option User.t) (obj : Obj) : result bool :=
  let? adm := is_superuser_or_admin_role db user in
  if adm then Ok true
  else let? p := getattr_patient db obj in
       Ok (eq_request_user (Patient.created_by p) user).

Definition IsPatientRecordOwnerOrAdmin_has_permission (db : DB)
    (user : option User.t) : result bool :=
  let? adm := is_superuser_or_admin_role db user in
  if adm then Ok true
  else if is_authenticated user
       then let? r := profile_role db user in Ok (Role_eqb r doctor)
       else Ok false.

Definition IsPatientRecordOwnerOrAdmin : Permission :=
  mkPermission IsPatientRecordOwnerOrAdmin_has_permission
               IsPatientRecordOwnerOrAdmin_has_object_permission.

(** framework: [A | B] on permission classes; Python's [or] evaluates the
    right operand only when the left one is false. *)
Definition OR (a b : Permission) : Permission :=
  mkPermission
    (fun db user =>
       let? x := has_permission a db user in
       if x then Ok true else has_permission b db user)
    (fun db user obj =>
       let? x := (let? p := has_permission a db user in
                  if p then has_object_permission a db user obj else Ok false) in
       if x then Ok true
       else let? p := has_permission b db user in
            if p then has_object_permission b db user obj else Ok false).

(** framework: [APIView.permission_denied]: a request without credentials
    is answered 401, an authenticated one 403. *)
Definition permission_denied (user : option User.t) : Exception :=
  if is_authenticated user then PermissionDenied else NotAuthenticated.

(** framework: [APIView.check_permissions] and
    [APIView.check_object_permissions] go through [permission_classes] in
    order and stop at the first that refuses. *)
Fixpoint check_permissions (perms : list Permission) (db : DB)
    (user : option User.t) : result unit :=
  match perms with
  | [] => Ok tt
  | p :: ps =>
      let? ok := has_permission p db user in
      if ok then check_permissions ps db user
      else Raise (permission_denied user)
  end.

Fixpoint check_object_permissions (perms : list Permission) (db : DB)
    (user : option User.t) (obj : Obj) : result unit :=
  match perms with
  | [] => Ok tt
  | p :: ps =>
      let? ok := has_object_permission p db user obj in
      if ok then check_object_permissions ps db user obj
      else Raise (permission_denied user)
  end.

(* ================================================================== *)
(** * serializers.py *)
(* ================================================================== *)

(** ** framework: serializer fields

    A field raises [ValidationError] with a list of errors on input it
    rejects.  The serializer catches it and files the errors under the
    field's name; any other exception passes through.

    A request body is taken after parsing: a key is absent ([None]) or
    holds a value of the field's type, and a string is what a [CharField]
    keeps of it, with surrounding white space trimmed.  The range a
    database backend imposes on an integer column is configuration and
    is not modelled. *)

Definition invalid {A} (e : ErrorDetail) : result A :=
  Raise (ValidationError (vlist [e])).

Definition CharField (max_length : option nat) (v : option string)
  : result string :=
  match v with
  | None => invalid (Code "required")
  | Some s =>
      if String.eqb s EmptyString then invalid (Code "blank")
      else match max_length with
           | Some n => if (n <? String.length s)%nat
                       then invalid (Code "max_length") else Ok s
           | None => Ok s
           end
  end.

Definition IntegerField (v : option Z) : result Z :=
  match v with
  | None => invalid (Code "required")
  | Some z => Ok z
  end.

Definition ChoiceField {A} (parse : string -> option A) (v : option string)
  : result A :=
  match v with
  | None => invalid (Code "required")
  | Some s => match parse s with
              | Some a => Ok a
              | None => invalid (Code "invalid_choice")
              end
  end.

(** [PrimaryKeyRelatedField(queryset=Patient.objects.all())], the field a
    [ModelSerializer] builds for a foreign key to [Patient]. *)
Definition PrimaryKeyRelatedField_Patient (db : DB) (v : option Z)
  : result Patient.t :=
  match v with
  | None => invalid (Code "required")
  | Some pk => match find_patient db pk with
               | Some p => Ok p
               | None => invalid (Code "does_not_exist")
               end
  end.

(** [UniqueValidator], which a [ModelSerializer] attaches to a field whose
    column is unique. *)
Definition UniqueValidator_username (db : DB) (s : string) : result string :=
  if existsb (fun u => String.eqb (User.username u) s) (users db)
  then invalid (Code "unique") else Ok s.

(** One field of [Serializer.to_internal_value]. *)
Definition run_field {A} (name : string) (r : result A)
  : result (FieldErrors * option A) :=
  match r with
  | Ok a => Ok ([], Some a)
  | Raise (ValidationError (vlist errs)) => Ok ([(name, errs)], None)
  | Raise e => Raise e
  end.

(** ** [UserRegistrationSerializer] *)

Module SignupData.
(** The request body of [signup]. *)
Record t := mk {
  username : option string;
  email : option string;
  password : option string;
  password2 : option string;
  role : option string
}.
End SignupData.

Module SignupAttrs.
(** [validated_data]; [email] is optional on the model, so its key is
    absent when the request did not send it. *)
Record t := mk {
  username : string;
  email : option string;
  password : string;
  password2 : string;
  role : Role
}.
End SignupAttrs.

(** Field validation.  The checks of [django.contrib.auth]'s user model on
    the characters of a user name and the format of an e-mail address are
    not part of the application and are left out. *)
Definition UserRegistrationSerializer_to_internal_value (db : DB)
    (data : SignupData.t) : result SignupAttrs.t :=
  let? (e1, username) :=
    run_field "username"
      (let? s := CharField None (SignupData.username data) in
       UniqueValidator_username db s) in
  let? (e2, password) :=
    run_field "password" (CharField None (SignupData.password data)) in
  let? (e3, password2) :=
    run_field "password2" (CharField None (SignupData.password2 data)) in
  let? (e4, role) :=
    run_field "role" (ChoiceField role_of_choice (SignupData.role data)) in
  match username, password, password2, role with
  | Some u, Some p, Some p2, Some r =>
      Ok (SignupAttrs.mk u (SignupData.email data) p p2 r)
  | _, _, _, _ => Raise (ValidationError (vdict (e1 ++ e2 ++ e3 ++ e4)%list))
  end.

(** [validate], serializers.py lines 25-28 *)
Definition UserRegistrationSerializer_validate (attrs : SignupAttrs.t)
  : result SignupAttrs.t :=
  if negb (String.eqb (SignupAttrs.password attrs) (SignupAttrs.password2 attrs))
  then Raise (ValidationError
                (vdict [("password", [Msg "Password fields didn't match."])]))
  else Ok attrs.

Definition UserRegistrationSerializer_run_validation (db : DB)
    (data : SignupData.t) : result SignupAttrs.t :=
  let? attrs := UserRegistrationSerializer_to_internal_value db data in
  UserRegistrationSerializer_validate attrs.

(** [validated_data['email']] *)
Definition getitem_email (validated_data : SignupAttrs.t) : result string :=
  match SignupAttrs.email validated_data with
  | Some e => Ok e
  | None => Raise (KeyError "email")
  end.

(** [create], serializers.py lines 30-39 *)
Definition UserRegistrationSerializer_create (validated_data : SignupAttrs.t)
  : M User.t :=
  let role := SignupAttrs.role validated_data in
  email <- query (fun _ => getitem_email validated_data) ;;
  user <- User_objects_create_user (SignupAttrs.username validated_data)
                                   email
                                   (SignupAttrs.password validated_data) ;;
  _ <- Profile_objects_create (User.id user) role ;;
  ret user.

(** ** [PatientSerializer] *)

Module PatientData.
(** The request body of create-patient.  [id], [created_by] and
    [created_at] are what a caller may send for the read-only fields. *)
Record t := mk {
  id : option Z;
  name : option string;
  age : option Z;
  gender : option string;
  address : option string;
  created_by : option Z;
  created_at : option Z
}.
End PatientData.

Module PatientAttrs.
(** [validated_data]: the writable fields only. *)
Record t := mk {
  name : string;
  age : Z;
  gender : Gender;
  address : string
}.
End PatientAttrs.

(** [validate_age], serializers.py lines 50-53 *)
Definition PatientSerializer_validate_age (value : Z) : result Z :=
  if value <=? 0
  then invalid (Msg "Age must be greater than 0.")
  else Ok value.

(** Field validation over the writable fields: [created_by] is declared
    [read_only=True], [created_at] is in [read_only_fields], [id] is the
    primary key. *)
Definition PatientSerializer_run_validation (data : PatientData.t)
  : result PatientAttrs.t :=
  let? (e1, name) :=
    run_field "name" (CharField (Some 255%nat) (PatientData.name data)) in
  let? (e2, age) :=
    run_field "age" (let? z := IntegerField (PatientData.age data) in
                     PatientSerializer_validate_age z) in
  let? (e3, gender) :=
    run_field "gender" (ChoiceField gender_of_choice (PatientData.gender data)) in
  let? (e4, address) :=
    run_field "address" (CharField None (PatientData.address data)) in
  match name, age, gender, address with
  | Some n, Some a, Some g, Some ad => Ok (PatientAttrs.mk n a g ad)
  | _, _, _, _ => Raise (ValidationError (vdict (e1 ++ e2 ++ e3 ++ e4)%list))
  end.

(** [serializer.save(created_by=...)]: the keyword arguments are merged
    over [validated_data] and the row is created. *)
Definition PatientSerializer_save (validated_data : PatientAttrs.t)
    (created_by : Z) (now : Z) : M Patient.t :=
  Patient_objects_create (PatientAttrs.name validated_data)
                         (PatientAttrs.age validated_data)
                         (PatientAttrs.gender validated_data)
                         (PatientAttrs.address validated_data)
                         created_by now.

(** ** [MedicalRecordSerializer] *)

Module RecordData.
(** The request body of add-record. *)
Record t := mk {
  patient : option Z;
  symptoms : option string;
  diagnosis : option string;
  treatment : option string
}.
End RecordData.

Module RecordAttrs.
Record t := mk {
  patient : Patient.t;
  symptoms : string;
  diagnosis : string;
  treatment : string
}.
End RecordAttrs.

(** [validate_patient], serializers.py lines 63-69.  The generic view
    always puts the request in the serializer's context. *)
Definition MedicalRecordSerializer_validate_patient (db : DB)
    (user : option User.t) (value : Patient.t) : result Patient.t :=
  if negb (is_superuser user) then
    let? r := profile_role db user in
    if negb (Role_eqb r admin) then
      if negb (eq_request_user (Patient.created_by value) user)
      then invalid (Msg "You can only add medical records to your own patients.")
      else Ok value
    else Ok value
  else Ok value.

Definition MedicalRecordSerializer_run_validation (db : DB)
    (user : option User.t) (data : RecordData.t) : result RecordAttrs.t :=
  let? (e1, patient) :=
    run_field "patient"
      (let? p := PrimaryKeyRelatedField_Patient db (RecordData.patient data) in
       MedicalRecordSerializer_validate_patient db user p) in
  let? (e2, symptoms) :=
    run_field "symptoms" (CharField None (RecordData.symptoms data)) in
  let? (e3, diagnosis) :=
    run_field "diagnosis" (CharField None (RecordData.diagnosis data)) in
  let? (e4, treatment) :=
    run_field "treatment" (CharField None (RecordData.treatment data)) in
  match patient, symptoms, diagnosis, treatment with
  | Some p, Some s, Some d, Some t => Ok (RecordAttrs.mk p s d t)
  | _, _, _, _ => Raise (ValidationError (vdict (e1 ++ e2 ++ e3 ++ e4)%list))
  end.

(** [serializer.save(patient=...)]: the keyword argument replaces the
    validated [patient]. *)
Definition MedicalRecordSerializer_save (validated_data : RecordAttrs.t)
    (patient : Patient.t) (now : Z) : M MedicalRecord.t :=
  MedicalRecord_objects_create (Patient.id patient)
                               (RecordAttrs.symptoms validated_data)
                               (RecordAttrs.diagnosis validated_data)
                               (RecordAttrs.treatment validated_data)
                               now.

(* ================================================================== *)
(** * views.py *)
(* ================================================================== *)

(** The body of a response.  Error bodies carry the [status_code] key once
    the exception handler has added it. *)
Inductive Body :=
| detail_body (detail : string) (status_code : option Z)
| errors_body (errors : FieldErrors) (status_code : option Z)
| error_list_body (errors : list ErrorDetail)
| signup_body (message : string) (user_id : Z) (username : string) (role : Role)
| login_body (message : string) (token : string) (user_id : Z)
             (username : string) (role : Role)
| patient_body (p : Patient.t)
| patient_list_body (ps : list Patient.t)
| record_body (r : MedicalRecord.t)
| record_list_body (rs : list MedicalRecord.t).

Record Response := mkResponse {
  status : Z;
  data : Body
}.

(** What the caller of an endpoint observes: a response, or an exception no
    handler turned into one (a server error). *)
Inductive HttpResult :=
| Returned (r : Response)
| Uncaught (e : Exception).

(** framework: [rest_framework.views.exception_handler]; Django's
    [Http404] is answered like the framework's [NotFound]. *)
Definition drf_exception_handler (exc : Exception) : option Response :=
  match exc with
  | Http404 msg => Some (mkResponse HTTP_404_NOT_FOUND (detail_body msg None))
  | APIError st d _ => Some (mkResponse st (detail_body d None))
  | ValidationError (vdict errs) =>
      Some (mkResponse HTTP_400_BAD_REQUEST (errors_body errs None))
  | ValidationError (vlist errs) =>
      Some (mkResponse HTTP_400_BAD_REQUEST (error_list_body errs))
  | _ => None
  end.

(** [isinstance(exc, APIException)] *)
Definition isinstance_APIException (exc : Exception) : bool :=
  match exc with
  | APIError _ _ _ | ValidationError _ => true
  | _ => false
  end.

Definition isinstance_IntegrityError (exc : Exception) : bool :=
  match exc with IntegrityError => true | _ => false end.

(** [response.data['status_code'] = ...]; the assignment needs a
    dictionary. *)
Definition setitem_status_code (b : Body) (st : Z) : result Body :=
  match b with
  | detail_body d _ => Ok (detail_body d (Some st))
  | errors_body e _ => Ok (errors_body e (Some st))
  | _ => Raise (TypeError "list indices must be integers or slices, not str")
  end.

(** [custom_exception_handler], views.py lines 20-42 *)
Definition custom_exception_handler (exc : Exception)
  : result (option Response) :=
  match drf_exception_handler exc with
  | Some response =>
      if isinstance_APIException exc
      then let? d := setitem_status_code (data response) (status response) in
           Ok (Some (mkResponse (status response) d))
      else Ok (Some (mkResponse (status response)
                       (detail_body "An unexpected error occurred."
                                    (Some (status response)))))
  | None =>
      if isinstance_IntegrityError exc
      then Ok (Some (mkResponse HTTP_400_BAD_REQUEST
             (detail_body
                "A database integrity error occurred. This might be due to duplicate entry or related data issues."
                (Some HTTP_400_BAD_REQUEST))))
      else Ok None
  end.

(** framework: [APIView.handle_exception] with [custom_exception_handler]
    as the configured handler (the error bodies of the interface carry
    [status_code], which only this handler adds). *)
Definition handle_exception (exc : Exception) : HttpResult :=
  match custom_exception_handler exc with
  | Ok (Some response) => Returned response
  | Ok None => Uncaught exc
  | Raise e => Uncaught e
  end.

(** framework: [APIView.dispatch]: check the view's permissions, run the
    handler, turn an exception into a response. *)
Definition dispatch (permission_classes : list Permission)
    (user : option User.t) (handler : M Response) : DB -> HttpResult * DB :=
  fun db =>
    match (query (fun db => check_permissions permission_classes db user) ;;;
           handler) db with
    | (Ok response, db') => (Returned response, db')
    | (Raise e, db') => (handle_exception e, db')
    end.

(** framework: [serializer.errors] after a failed [is_valid()]. *)
Definition serializer_errors (d : ValidationDetail) : FieldErrors :=
  match d with
  | vdict errs => errs
  | vlist errs => [("non_field_errors", errs)]
  end.

(** ** Authentication views *)

(** [signup], views.py lines 47-67; [fresh_key] is the key a new token
    would get. *)
Definition signup_handler (data : SignupData.t) (fresh_key : string)
  : M Response :=
  fun db =>
    match UserRegistrationSerializer_run_validation db data with
    | Ok validated_data =>
        try_except
          (user <- UserRegistrationSerializer_create validated_data ;;
           _ <- Token_objects_get_or_create (User.id user) fresh_key ;;
           role <- query (fun db => profile_role db (Some user)) ;;
           ret (mkResponse HTTP_201_CREATED
                  (signup_body
                     "User registered successfully. Please login to get your token."
                     (User.id user) (User.username user) role)))
          isinstance_IntegrityError
          (fun _ =>
             ret (mkResponse HTTP_400_BAD_REQUEST
                    (detail_body "Username or email already exists."
                                 (Some HTTP_400_BAD_REQUEST))))
          db
    | Raise (ValidationError d) =>
        (Ok (mkResponse HTTP_400_BAD_REQUEST
               (errors_body (serializer_errors d) None)), db)
    | Raise e => (Raise e, db)
    end.

Definition signup (data : SignupData.t) (fresh_key : string)
  : DB -> HttpResult * DB :=
  dispatch [] None (signup_handler data fresh_key).

Module LoginData.
Record t := mk {
  username : option string;
  password : option string
}.
End LoginData.

(** framework: [django.contrib.auth.authenticate] with the model backend:
    [None] for a missing credential, an unknown user name or a password
    that does not check. *)
Definition authenticate (db : DB) (username password : option string)
  : option User.t :=
  match username, password with
  | Some name, Some pw =>
      match find (fun u => String.eqb (User.username u) name) (users db) with
      | Some u => if String.eqb (User.password u) pw then Some u else None
      | None => None
      end
  | _, _ => None
  end.

(** framework: [django.contrib.auth.login] records the login time on the
    user and saves it. *)
Definition login (user : User.t) : M unit := User_save user.

(** [login_view], views.py lines 70-93 *)
Definition login_view_handler (data : LoginData.t) (fresh_key : string)
  : M Response :=
  fun db =>
    let username := LoginData.username data in
    let password := LoginData.password data in
    match authenticate db username password with
    | Some user =>
        (login user ;;;
         tc <- Token_objects_get_or_create (User.id user) fresh_key ;;
         role <- query (fun db => profile_role db (Some user)) ;;
         ret (mkResponse HTTP_200_OK
                (login_body "Login successful" (Token.key (fst tc))
                            (User.id user) (User.username user) role))) db
    | None =>
        (Ok (mkResponse HTTP_401_UNAUTHORIZED
               (detail_body "Invalid credentials" (Some HTTP_401_UNAUTHORIZED))),
         db)
    end.

Definition login_view (data : LoginData.t) (fresh_key : string)
  : DB -> HttpResult * DB :=
  dispatch [] None (login_view_handler data fresh_key).

(** ** Patient views *)

(** [hasattr(user, 'profile') and user.profile.role == r] *)
Definition hasattr_profile_and_role (db : DB) (user : option User.t)
    (r : Role) : bool :=
  match profile_role db user with
  | Ok r' => Role_eqb r' r
  | Raise _ => false
  end.

(** [PatientListCreateView], views.py lines 98-117 *)
Definition PatientListCreateView_permission_classes : list Permission :=
  [IsAuthenticated; OR IsDoctor IsAdmin].

(** [get_queryset], lines 106-111 *)
Definition PatientListCreateView_get_queryset (db : DB)
    (user : option User.t) : result (list Patient.t) :=
  if is_superuser user || hasattr_profile_and_role db user admin
  then Ok (Patient_objects_all db)
  else match user with
       | Some u => Ok (Patient_objects_filter_created_by db u)
       | None => Raise (TypeError "AnonymousUser is not a valid filter value")
       end.

(** [perform_create], lines 113-117 *)
Definition PatientListCreateView_perform_create (user : option User.t)
    (validated_data : PatientAttrs.t) (now : Z) : M Patient.t :=
  fun db =>
    if negb (is_superuser user || hasattr_profile_and_role db user doctor)
    then (Raise (APIException "Only doctors can create patients."
                              (code_int HTTP_403_FORBIDDEN)), db)
    else match user with
         | Some u => PatientSerializer_save validated_data (User.id u) now db
         | None => (Raise (TypeError "AnonymousUser is not a User instance"), db)
         end.

(** framework: [ListModelMixin.list].  The page the configured paginator
    cuts out of the query set is not modelled: the body is the query set. *)
Definition PatientListCreateView_list (user : option User.t) : M Response :=
  qs <- query (fun db => PatientListCreateView_get_queryset db user) ;;
  ret (mkResponse HTTP_200_OK (patient_list_body qs)).

(** framework: [CreateModelMixin.create] *)
Definition PatientListCreateView_create (user : option User.t)
    (data : PatientData.t) (now : Z) : M Response :=
  validated_data <- query (fun _ => PatientSerializer_run_validation data) ;;
  p <- PatientListCreateView_perform_create user validated_data now ;;
  ret (mkResponse HTTP_201_CREATED (patient_body p)).

(** [GET /patients/] and [POST /patients/] *)
Definition PatientListCreateView_get (user : option User.t)
  : DB -> HttpResult * DB :=
  dispatch PatientListCreateView_permission_classes user
           (PatientListCreateView_list user).

Definition PatientListCreateView_post (user : option User.t)
    (data : PatientData.t) (now : Z) : DB -> HttpResult * DB :=
  dispatch PatientListCreateView_permission_classes user
           (PatientListCreateView_create user data now).

(** [PatientDetailView], views.py lines 120-127 *)
Definition PatientDetailView_permission_classes : list Permission :=
  [IsAuthenticated; IsOwnerOrAdmin].

(** framework: [GenericAPIView.get_object]: [get_object_or_404] on the
    view's query set, then the object-level permissions. *)
Definition PatientDetailView_get_object (db : DB) (user : option User.t)
    (pk : Z) : result Patient.t :=
  match find_patient db pk with
  | None => Raise (Http404 "No Patient matches the given query.")
  | Some obj =>
      let? _ := check_object_permissions PatientDetailView_permission_classes
                  db user (PatientObj obj) in
      Ok obj
  end.

(** framework: [RetrieveModelMixin.retrieve] *)
Definition PatientDetailView_retrieve (user : option User.t) (pk : Z)
  : M Response :=
  instance <- query (fun db => PatientDetailView_get_object db user pk) ;;
  ret (mkResponse HTTP_200_OK (patient_body instance)).

(** [GET /patients/<pk>/] *)
Definition PatientDetailView_get (user : option User.t) (pk : Z)
  : DB -> HttpResult * DB :=
  dispatch PatientDetailView_permission_classes user
           (PatientDetailView_retrieve user pk).

(** ** Medical record views *)

(** [MedicalRecordAddView], views.py lines 131-150 *)
Definition MedicalRecordAddView_permission_classes : list Permission :=
  [IsAuthenticated; IsDoctor].

(** [Patient.objects.get(id=self.request.data.get('patient'))] *)
Definition get_patient_of_request (db : DB) (data : RecordData.t)
  : result Patient.t :=
  match RecordData.patient data with
  | Some patient_id => Patient_objects_get db patient_id
  | None => Raise (DoesNotExist "Patient matching query does not exist.")
  end.

(** [perform_create], lines 138-150 *)
Definition MedicalRecordAddView_perform_create (user : option User.t)
    (data : RecordData.t) (validated_data : RecordAttrs.t) (now : Z)
  : M MedicalRecord.t :=
  fun db =>
    match get_patient_of_request db data with
    | Raise (DoesNotExist _) =>
        (Raise (APIException "Patient not found."
                             (code_int HTTP_404_NOT_FOUND)), db)
    | Raise e => (Raise e, db)
    | Ok patient =>
        if negb (is_superuser user || hasattr_profile_and_role db user admin)
           && negb (eq_request_user (Patient.created_by patient) user)
        then (Raise (APIException
                       "You can only add medical records to your own patients."
                       (code_int HTTP_403_FORBIDDEN)), db)
        else MedicalRecordSerializer_save validated_data patient now db
    end.

(** framework: [CreateModelMixin.create] *)
Definition MedicalRecordAddView_create (user : option User.t)
    (data : RecordData.t) (now : Z) : M Response :=
  validated_data <-
    query (fun db => MedicalRecordSerializer_run_validation db user data) ;;
  r <- MedicalRecordAddView_perform_create user data validated_data now ;;
  ret (mkResponse HTTP_201_CREATED (record_body r)).

(** [POST /patients/records/add/] *)
Definition MedicalRecordAddView_post (user : option User.t)
    (data : RecordData.t) (now : Z) : DB -> HttpResult * DB :=
  dispatch MedicalRecordAddView_permission_classes user
           (MedicalRecordAddView_create user data now).

(** [PatientMedicalRecordListView], views.py lines 153-172 *)
Definition PatientMedicalRecordListView_permission_classes : list Permission :=
  [IsAuthenticated; IsPatientRecordOwnerOrAdmin].

(** [get_queryset], lines 162-172; [pk] is [self.kwargs['pk']]. *)
Definition PatientMedicalRecordListView_get_queryset (db : DB)
    (user : option User.t) (pk : Z) : result (list MedicalRecord.t) :=
  match Patient_objects_get db pk with
  | Raise (DoesNotExist _) =>
      Raise (APIException "Patient not found." (code_int HTTP_404_NOT_FOUND))
  | Raise e => Raise e
  | Ok patient =>
      let? _ := check_object_permissions
                  PatientMedicalRecordListView_permission_classes
                  db user (PatientObj patient) in
      Ok (MedicalRecord_objects_filter_patient db patient)
  end.

(** framework: [ListModelMixin.list], as for patients. *)
Definition PatientMedicalRecordListView_list (user : option User.t) (pk : Z)
  : M Response :=
  qs <- query (fun db => PatientMedicalRecordListView_get_queryset db user pk) ;;
  ret (mkResponse HTTP_200_OK (record_list_body qs)).

(** [GET /patients/<pk>/records/] *)
Definition PatientMedicalRecordListView_get (user : option User.t) (pk : Z)
  : DB -> HttpResult * DB :=
  dispatch PatientMedicalRecordListView_permission_classes user
           (PatientMedicalRecordListView_list user pk).

(* ================================================================== *)
(** * urls.py *)
(* ================================================================== *)

(** A route of [path(...)] is a sequence of literal pieces and converters;
    the application uses the converter [<int:pk>] only. *)
Inductive Part :=
| Lit (s : string)
| IntConverter.

(** The [name=] of each entry of [urlpatterns]. *)
Inductive UrlName :=
| url_signup
| url_login
| url_patient_list_create
| url_patient_detail
| url_medical_record_add
| url_patient_medical_records.

(** [urlpatterns], urls.py lines 8-20, in the order of the file. *)
Definition urlpatterns : list (list Part * UrlName) :=
  [ ([Lit "signup/"], url_signup);
    ([Lit "login/"], url_login);
    ([Lit "patients/"], url_patient_list_create);
    ([Lit "patients/"; IntConverter; Lit "/"], url_patient_detail);
    ([Lit "patients/records/add/"], url_medical_record_add);
    ([Lit "patients/"; IntConverter; Lit "/records/"],
     url_patient_medical_records) ].

(** [s] without the prefix [l], if it starts with [l]. *)
Fixpoint strip_prefix (l s : string) : option string :=
  match l, s with
  | EmptyString, _ => Some s
  | String a l', String b s' =>
      if Ascii.eqb a b then strip_prefix l' s' else None
  | String _ _, EmptyString => None
  end.

(** framework: the [int] converter matches [[0-9]+] and converts with
    [int()]. *)
Definition is_digit (c : ascii) : bool :=
  match uint_of_char c (Some Nil) with
  | Some _ => true
  | None => false
  end.

(** The longest prefix of digits, and what follows it. *)
Fixpoint span_digits (s : string) : string * string :=
  match s with
  | EmptyString => (EmptyString, EmptyString)
  | String c s' =>
      if is_digit c
      then let (ds, rest) := span_digits s' in (String c ds, rest)
      else (EmptyString, s)
  end.

Definition to_python_int (digits : string) : option Z :=
  option_map (fun d => Z.of_N (N.of_uint d)) (NilEmpty.uint_of_string digits).

(** The next character, if any, is not a digit. *)
Definition no_digit_ahead (s : string) : Prop :=
  match s with
  | EmptyString => True
  | String c _ => is_digit c = false
  end.

(** framework: a route matches a path when its pieces match one after the
    other and nothing is left over; the result is the list of converted
    arguments.  A converter takes the longest run of digits: in
    [urlpatterns] every converter is followed by a literal that starts with
    a slash, so no shorter run could match. *)
Fixpoint match_route (route : list Part) (path : string) : option (list Z) :=
  match route with
  | [] => match path with EmptyString => Some [] | String _ _ => None end
  | Lit l :: route' =>
      match strip_prefix l path with
      | Some rest => match_route route' rest
      | None => None
      end
  | IntConverter :: route' =>
      let (ds, rest) := span_digits path in
      match ds with
      | EmptyString => None
      | String _ _ =>
          match to_python_int ds, match_route route' rest with
          | Some pk, Some args => Some (pk :: args)
          | _, _ => None
          end
      end
  end.

(** framework: the resolver tries the patterns in order and takes the
    first that matches. *)
Fixpoint resolve_in (patterns : list (list Part * UrlName)) (path : string)
  : option (UrlName * list Z) :=
  match patterns with
  | [] => None
  | (route, name) :: patterns' =>
      match match_route route path with
      | Some args => Some (name, args)
      | None => resolve_in patterns' path
      end
  end.

Definition resolve (path : string) : option (UrlName * list Z) :=
  resolve_in urlpatterns path.

(** framework: [str(pk)] of a primary key. *)
Definition str_of_pk (pk : N) : string :=
  NilEmpty.string_of_uint (N.to_uint pk).

(** framework: [reverse(name, kwargs={'pk': pk})] fills the route of the
    entry called [name]; [pk] is not used by a route without converter. *)
Definition reverse (name : UrlName) (pk : N) : string :=
  match name with
  | url_signup => "signup/"
  | url_login => "login/"
  | url_patient_list_create => "patients/"
  | url_patient_detail => "patients/" ++ str_of_pk pk ++ "/"
  | url_medical_record_add => "patients/records/add/"
  | url_patient_medical_records => "patients/" ++ str_of_pk pk ++ "/records/"
  end.

(** The arguments a view called [name] receives for [pk]. *)
Definition kwargs (name : UrlName) (pk : N) : list Z :=
  match name with
  | url_patient_detail | url_patient_medical_records => [Z.of_N pk]
  | _ => []
  end.

(* ================================================================== *)
(** * Vocabulary of the properties *)
(* ================================================================== *)

Unset Implicit Arguments.

(** [isAdmin(actor)]: a superuser, or a user whose role is [admin]. *)
Definition actor_is_admin (u : User.t) (pr : Profile.t) : bool :=
  User.is_superuser u || Role_eqb (Profile.role pr) admin.

(** [owns(actor, patient)] *)
Definition owns (u : User.t) (p : Patient.t) : bool :=
  Patient.created_by p =? User.id u.

(** The rows of [patients] an actor may see. *)
Definition visible_patients (db : DB) (u : User.t) (pr : Profile.t)
  : list Patient.t :=
  if actor_is_admin u pr then patients db
  else filter (owns u) (patients db).

Definition not_found_response : Response :=
  mkResponse HTTP_404_NOT_FOUND
    (detail_body "An unexpected error occurred." (Some HTTP_404_NOT_FOUND)).

Definition forbidden_response : Response :=
  mkResponse HTTP_403_FORBIDDEN
    (detail_body "You do not have permission to perform this action."
                 (Some HTTP_403_FORBIDDEN)).

Definition invalid_credentials_response : Response :=
  mkResponse HTTP_401_UNAUTHORIZED
    (detail_body "Invalid credentials" (Some HTTP_401_UNAUTHORIZED)).

(** The row [POST /patients/] stores for an actor [u]. *)
Definition new_patient (db : DB) (u : User.t) (vd : PatientAttrs.t) (now : Z)
  : Patient.t :=
  Patient.mk (next_id (map Patient.id (patients db)))
             (PatientAttrs.name vd) (PatientAttrs.age vd)
             (PatientAttrs.gender vd) (PatientAttrs.address vd)
             (User.id u) now.

Definition with_patient (db : DB) (p : Patient.t) : DB :=
  mkDB (users db) (profiles db) (patients db ++ [p])
       (medical_records db) (tokens db).

Definition only_doctors_response : Response :=
  mkResponse HTTP_500_INTERNAL_SERVER_ERROR
    (detail_body "Only doctors can create patients."
                 (Some HTTP_500_INTERNAL_SERVER_ERROR)).

(** ** A database to evaluate on

    The rows of [PatientMedicalRecordTests.setUp] in tests.py: two doctors,
    a superuser whose role was set to [admin], doctor1's patients A and B,
    doctor2's patient C, two records of patient A; and one more user, an
    ordinary account with role [admin]. *)
Definition doctor1 : User.t := User.mk 1 "doctor1" EmptyString "doc1pass" false.
Definition doctor2 : User.t := User.mk 2 "doctor2" EmptyString "doc2pass" false.
Definition admin_user : User.t := User.mk 3 "admin" EmptyString "adminpass" true.
Definition staff_admin : User.t := User.mk 4 "staff" EmptyString "staffpass" false.

Definition patient1_doc1 : Patient.t :=
  Patient.mk 1 "Patient A" 30 Male "123 Main St" 1 100.
Definition patient2_doc1 : Patient.t :=
  Patient.mk 2 "Patient B" 45 Female "456 Oak Ave" 1 101.
Definition patient3_doc2 : Patient.t :=
  Patient.mk 3 "Patient C" 25 Other "789 Pine Rd" 2 102.

Definition record1_doc1 : MedicalRecord.t :=
  MedicalRecord.mk 1 1 "Fever" "Flu" "Rest" 103.
Definition record2_doc1 : MedicalRecord.t :=
  MedicalRecord.mk 2 1 "Cough" "Cold" "Medication" 104.

Definition fixture : DB :=
  mkDB [doctor1; doctor2; admin_user; staff_admin]
       [Profile.mk 1 1 doctor; Profile.mk 2 2 doctor;
        Profile.mk 3 3 admin; Profile.mk 4 4 admin]
       [patient1_doc1; patient2_doc1; patient3_doc2]
       [record1_doc1; record2_doc1]
       [].

(** The body of [test_patient_creation_by_doctor], with a [created_by] the
    caller made up. *)
Definition new_patient_data : PatientData.t :=
  PatientData.mk None (Some "New Patient") (Some 28) (Some "Female")
                 (Some "New Patient Address") (Some 2) None.

(** The bodies of [test_signup_doctor] and [test_signup_admin]. *)
Definition signup_doctor_data : SignupData.t :=
  SignupData.mk (Some "testdoctor") (Some "doctor@example.com")
                (Some "password123") (Some "password123") (Some "doctor").

Definition signup_admin_data : SignupData.t :=
  SignupData.mk (Some "testadmin") (Some "admin@example.com")
                (Some "password123") (Some "password123") (Some "admin").

Definition already_exists_response : Response :=
  mkResponse HTTP_400_BAD_REQUEST
    (detail_body "Username or email already exists."
                 (Some HTTP_400_BAD_REQUEST)).

(** The body of [test_doctor_cannot_add_record_to_other_doctors_patient],
    and the same body naming a patient id nobody has. *)
Definition record_for_patient (patient_id : Z) : RecordData.t :=
  RecordData.mk (Some patient_id) (Some "Headache") (Some "Migraine")
                (Some "Painkillers").

(** ** The invariant of the identity tables

    Profile rows have distinct primary keys, every user is the [user] of a
    profile row, and every profile row belongs to a user. *)
Record identity_ok (db : DB) : Prop := mk_identity_ok {
  profile_ids_distinct : NoDup (map Profile.id (profiles db));
  users_have_profiles :
    incl (map User.id (users db)) (map Profile.user (profiles db));
  profiles_have_users :
    incl (map Profile.user (profiles db)) (map User.id (users db))
}.

(** The database after a user and the profile of the receiver were
    inserted. *)
Definition created_user (db : DB) (username email password : string)
    (su : bool) : User.t :=
  User.mk (next_id (map User.id (users db))) username email password su.

Definition created_profile (db : DB) : Profile.t :=
  Profile.mk (next_id (map Profile.id (profiles db)))
             (next_id (map User.id (users db))) Profile.role_default.

Definition with_user (db : DB) (u : User.t) (p : Profile.t) : DB :=
  mkDB (users db ++ [u]) (profiles db ++ [p]) (patients db)
       (medical_records db) (tokens db).

(** ** The database states the application can be in

    One step is one request to an endpoint, or one of the ORM calls the
    test set-up makes directly: creating a user or a superuser, and
    changing the role of a stored profile. *)
Inductive step (db : DB) : DB -> Prop :=
| step_create_user name email pw :
    step db (snd (User_objects_create_user name email pw db))
| step_create_superuser name email pw :
    step db (snd (User_objects_create_superuser name email pw db))
| step_set_role p r :
    In p (profiles db) ->
    step db (snd (Profile_save (Profile.mk (Profile.id p) (Profile.user p) r) db))
| step_signup payload key :
    step db (snd (signup payload key db))
| step_login payload key :
    step db (snd (login_view payload key db))
| step_patients_get user :
    step db (snd (PatientListCreateView_get user db))
| step_patients_post user payload now :
    step db (snd (PatientListCreateView_post user payload now db))
| step_patient_get user pk :
    step db (snd (PatientDetailView_get user pk db))
| step_record_post user payload now :
    step db (snd (MedicalRecordAddView_post user payload now db))
| step_records_get user pk :
    step db (snd (PatientMedicalRecordListView_get user pk db)).

Inductive reachable : DB -> Prop :=
| reachable_empty : reachable empty_db
| reachable_step db db' : reachable db -> step db db' -> reachable db'.

Definition same_identity (db db' : DB) : Prop :=
  users db' = users db /\ profiles db' = profiles db.

(** ** Reading a response *)

(** The [status_code] key of an error body. *)
Definition body_status_code (b : Body) : option Z :=
  match b with
  | detail_body _ sc | errors_body _ sc => sc
  | _ => None
  end.

Definition unauthenticated_response : Response :=
  mkResponse HTTP_401_UNAUTHORIZED
    (detail_body "Authentication credentials were not provided."
                 (Some HTTP_401_UNAUTHORIZED)).



(** ** Rows the endpoints store *)

(** The row [POST /patients/records/add/] stores for the patient [p]. *)
Definition new_record (db : DB) (p : Patient.t)
    (symptoms diagnosis treatment : string) (now : Z) : MedicalRecord.t :=
  MedicalRecord.mk (next_id (map MedicalRecord.id (medical_records db)))
                   (Patient.id p) symptoms diagnosis treatment now.

Definition with_record (db : DB) (r : MedicalRecord.t) : DB :=
  mkDB (users db) (profiles db) (patients db)
       (medical_records db ++ [r]) (tokens db).

Definition with_token (db : DB) (t : Token.t) : DB :=
  mkDB (users db) (profiles db) (patients db)
       (medical_records db) (tokens db ++ [t]).


(** ** What one step does to the database

    Nothing; or one user with the receiver's profile is added; or the role
    of a stored profile is set; or one validated patient, one record of a
    stored patient, or the first token of a stored user is added. *)
Inductive effect (db : DB) : DB -> Prop :=
| effect_none : effect db db
| effect_user name email pw su :
    existsb (fun u => String.eqb (User.username u) name) (users db) = false ->
    effect db (with_user db (created_user db name email pw su)
                         (created_profile db))
| effect_role p r :
    In p (profiles db) ->
    effect db (snd (Profile_save
                      (Profile.mk (Profile.id p) (Profile.user p) r) db))
| effect_patient u payload vd now :
    PatientSerializer_run_validation payload = Ok vd ->
    effect db (with_patient db (new_patient db u vd now))
| effect_record p s d t now :
    In p (patients db) ->
    effect db (with_record db (new_record db p s d t now))
| effect_token u key :
    In u (users db) ->
    find (fun t => Token.user t =? User.id u) (tokens db) = None ->
    effect db (with_token db (Token.mk key (User.id u))).

(** ** Invariants of the tables *)

(** A patient row as the serializer lets it in. *)
Definition patient_valid (p : Patient.t) : Prop :=
  0 < Patient.age p
  /\ Patient.name p <> EmptyString
  /\ (String.length (Patient.name p) <= 255)%nat
  /\ Patient.address p <> EmptyString.

Record identity_unique (db : DB) : Prop := mk_identity_unique {
  user_ids_distinct : NoDup (map User.id (users db));
  usernames_distinct : NoDup (map User.username (users db));
  profile_users_distinct : NoDup (map Profile.user (profiles db))
}.

Record care_ok (db : DB) : Prop := mk_care_ok {
  patient_ids_distinct : NoDup (map Patient.id (patients db));
  patients_valid : Forall patient_valid (patients db);
  record_ids_distinct : NoDup (map MedicalRecord.id (medical_records db));
  records_have_patients :
    incl (map MedicalRecord.patient (medical_records db))
         (map Patient.id (patients db))
}.

Record tokens_ok (db : DB) : Prop := mk_tokens_ok {
  token_users_distinct : NoDup (map Token.user (tokens db));
  tokens_have_users :
    incl (map Token.user (tokens db)) (map User.id (users db))
}.

(** ** Logging in *)

(** The credentials of a stored user. *)
Definition credentials (u : User.t) : LoginData.t :=
  LoginData.mk (Some (User.username u)) (Some (User.password u)).


(** doctor1 has logged in once. *)
Definition fixture_logged_in : DB :=
  snd (login_view (credentials doctor1) "k1" fixture).

(** ** Outcomes *)

(** The request was answered 201. *)
Definition is_created (res : HttpResult) : bool :=
  match res with
  | Returned r => status r =? HTTP_201_CREATED
  | Uncaught _ => false
  end.

Definition patient_not_found_response : Response :=
  mkResponse HTTP_500_INTERNAL_SERVER_ERROR
    (detail_body "Patient not found." (Some HTTP_500_INTERNAL_SERVER_ERROR)).

(** The patients in the body of a list answer. *)
Definition listed_patients (res : HttpResult) : list Patient.t :=
  match res with
  | Returned (mkResponse _ (patient_list_body ps)) => ps
  | _ => []
  end.

(** A superuser row without a profile row, as a user table filled before
    the receiver was connected would hold it. *)
Definition root_user : User.t :=
  User.mk 1 "root" EmptyString "rootpass" true.

Definition legacy_db : DB :=
  mkDB [root_user] [] [Patient.mk 1 "Patient A" 30 Male "123 Main St" 1 100]
       [] [].

(* ================================================================== *)
(** * Properties *)
(* ================================================================== *)

Lemma Role_eqb_eq a b : Role_eqb a b = true <-> a = b.
Proof. destruct a, b; simpl; split; congruence. Qed.

(** ** Ordering of query sets *)

Section OrderingFacts.
Variable A : Type.
Variable created_at : A -> Z.

Local Abbreviation insert := (insert_desc created_at).
Local Abbreviation order := (order_by_created_at_desc created_at).
Local Abbreviation newer := (newer_first created_at).

Lemma insert_desc_perm x l : Permutation (insert x l) (x :: l).
Proof.
  induction l as [|y l IH]; simpl.
  - apply Permutation_refl.
  - destruct (created_at y <? created_at x).
    + apply Permutation_refl.
    + eapply perm_trans; [apply perm_skip, IH | apply perm_swap].
Qed.

Lemma order_by_created_at_desc_perm l : Permutation (order l) l.
Proof.
  induction l as [|x l IH]; simpl.
  - constructor.
  - eapply perm_trans; [apply insert_desc_perm | apply perm_skip, IH].
Qed.

Lemma order_by_created_at_desc_In l x : In x (order l) <-> In x l.
Proof.
  split; apply Permutation_in;
    [ | apply Permutation_sym ]; apply order_by_created_at_desc_perm.
Qed.

Lemma insert_desc_sorted x l :
  StronglySorted newer l -> StronglySorted newer (insert x l).
Proof.
  induction 1 as [|y l Hs IH Hall]; simpl.
  - repeat constructor.
  - destruct (created_at y <? created_at x) eqn:E.
    + apply Z.ltb_lt in E. constructor.
      * constructor; assumption.
      * constructor; [unfold newer_first; lia|].
        eapply Forall_impl; [|exact Hall]. unfold newer_first. intros; lia.
    + apply Z.ltb_ge in E. constructor; [exact IH|].
      eapply Permutation_Forall;
        [apply Permutation_sym, insert_desc_perm|].
      constructor; [exact E | exact Hall].
Qed.

Lemma order_by_created_at_desc_sorted l : StronglySorted newer (order l).
Proof.
  induction l as [|x l IH]; simpl.
  - constructor.
  - apply insert_desc_sorted, IH.
Qed.
End OrderingFacts.

(** ** The actor of a request

    An actor is an authenticated user whose role resolves: [request.user]
    is a stored user [u] and [u.profile] is the row [pr]. *)

Section Actor.
Variable db : DB.
Variable u : User.t.
Variable pr : Profile.t.
Hypothesis Hprofile : User_profile db u = Ok pr.

Lemma profile_role_actor : profile_role db (Some u) = Ok (Profile.role pr).
Proof. simpl. rewrite Hprofile. reflexivity. Qed.

Lemma is_superuser_or_admin_role_actor :
  is_superuser_or_admin_role db (Some u) = Ok (actor_is_admin u pr).
Proof.
  unfold is_superuser_or_admin_role, actor_is_admin.
  rewrite profile_role_actor. simpl.
  destruct (User.is_superuser u); reflexivity.
Qed.

Lemma hasattr_profile_and_role_actor r :
  hasattr_profile_and_role db (Some u) r = Role_eqb (Profile.role pr) r.
Proof.
  unfold hasattr_profile_and_role. rewrite profile_role_actor. reflexivity.
Qed.

Lemma IsDoctor_has_permission_actor :
  IsDoctor_has_permission db (Some u) = Ok (Role_eqb (Profile.role pr) doctor).
Proof.
  unfold IsDoctor_has_permission. rewrite profile_role_actor. reflexivity.
Qed.

Lemma IsAdmin_has_permission_actor :
  IsAdmin_has_permission db (Some u) = Ok (actor_is_admin u pr).
Proof.
  unfold IsAdmin_has_permission. simpl is_authenticated. cbv iota.
  apply is_superuser_or_admin_role_actor.
Qed.

Lemma IsOwnerOrAdmin_has_object_permission_actor p :
  IsOwnerOrAdmin_has_object_permission db (Some u) (PatientObj p)
  = Ok (actor_is_admin u pr || owns u p).
Proof.
  unfold IsOwnerOrAdmin_has_object_permission.
  rewrite is_superuser_or_admin_role_actor. simpl.
  destruct (actor_is_admin u pr); reflexivity.
Qed.

(** Every actor is a doctor or an admin, so the collection gate
    [IsAuthenticated, (IsDoctor | IsAdmin)] lets every actor in. *)
Lemma check_permissions_PatientListCreateView :
  check_permissions PatientListCreateView_permission_classes db (Some u)
  = Ok tt.
Proof.
  unfold PatientListCreateView_permission_classes. simpl.
  rewrite IsDoctor_has_permission_actor. simpl.
  destruct (Profile.role pr) eqn:E; simpl; [reflexivity|].
  rewrite IsAdmin_has_permission_actor. unfold actor_is_admin.
  rewrite E. simpl. rewrite orb_true_r. reflexivity.
Qed.

Lemma check_permissions_PatientDetailView :
  check_permissions PatientDetailView_permission_classes db (Some u) = Ok tt.
Proof. reflexivity. Qed.

Lemma get_queryset_actor :
  PatientListCreateView_get_queryset db (Some u)
  = Ok (if actor_is_admin u pr then Patient_objects_all db
        else Patient_objects_filter_created_by db u).
Proof.
  unfold PatientListCreateView_get_queryset.
  rewrite hasattr_profile_and_role_actor. unfold actor_is_admin. simpl.
  destruct (User.is_superuser u || Role_eqb (Profile.role pr) admin);
    reflexivity.
Qed.
End Actor.

(** C7. For every authenticated actor (a user [u] whose profile [pr]
    resolves), list-patients answers 200 with exactly the rows of the
    patient table the actor may see -- all of them for an admin or
    superuser, otherwise exactly those whose [created_by] is the actor --
    ordered newest first by [created_at]; the database is left as it
    was. *)
Theorem list_patients_scoped_newest_first :
  forall (db : DB) (u : User.t) (pr : Profile.t),
    User_profile db u = Ok pr ->
    exists ps : list Patient.t,
      PatientListCreateView_get (Some u) db
      = (Returned (mkResponse HTTP_200_OK (patient_list_body ps)), db)
      /\ Permutation ps (visible_patients db u pr)
      /\ (forall p, In p ps <->
                    In p (patients db)
                    /\ (actor_is_admin u pr = true
                        \/ Patient.created_by p = User.id u))
      /\ StronglySorted (newer_first Patient.created_at) ps.
Proof.
  intros db u pr Hp.
  exists (order_by_created_at_desc Patient.created_at (visible_patients db u pr)).
  split; [|split; [|split]].
  - unfold PatientListCreateView_get, dispatch, PatientListCreateView_list,
      bind, query, ret.
    rewrite (check_permissions_PatientListCreateView db u pr Hp).
    rewrite (get_queryset_actor db u pr Hp).
    unfold visible_patients, Patient_objects_all,
      Patient_objects_filter_created_by, owns.
    destruct (actor_is_admin u pr); reflexivity.
  - apply order_by_created_at_desc_perm.
  - intro p. rewrite order_by_created_at_desc_In. unfold visible_patients.
    destruct (actor_is_admin u pr).
    + intuition.
    + rewrite filter_In. unfold owns. rewrite Z.eqb_eq.
      intuition discriminate.
  - apply order_by_created_at_desc_sorted.
Qed.

(** ** Lookups *)

Lemma find_patient_Some db pk p :
  find_patient db pk = Some p -> In p (patients db) /\ Patient.id p = pk.
Proof.
  unfold find_patient. intro H. apply find_some in H.
  rewrite Z.eqb_eq in H. exact H.
Qed.

Lemma find_patient_None db pk :
  (forall p, In p (patients db) -> Patient.id p <> pk) ->
  find_patient db pk = None.
Proof.
  intro H. unfold find_patient.
  destruct (find _ _) eqn:E; [|reflexivity].
  apply find_some in E. rewrite Z.eqb_eq in E.
  destruct E as [Hin Hid]. exfalso. exact (H _ Hin Hid).
Qed.

(** ** C8: retrieve one patient *)

(** C8. For every authenticated retrieve-one-patient request: when no
    patient has the requested id the answer is 404, whoever asks (the
    lookup comes before any use of the asker's role); when the id resolves
    to a patient, an actor who is admin or superuser or the patient's
    creator receives 200 with the patient's data, and any other actor
    receives 403.  The database is left as it was. *)
Theorem retrieve_patient_not_found_before_forbidden :
  forall (db : DB) (u : User.t) (pk : Z),
    ((forall p, In p (patients db) -> Patient.id p <> pk) ->
     PatientDetailView_get (Some u) pk db = (Returned not_found_response, db))
    /\
    (forall (pr : Profile.t) (p : Patient.t),
        User_profile db u = Ok pr ->
        find_patient db pk = Some p ->
        PatientDetailView_get (Some u) pk db
        = (Returned (if actor_is_admin u pr || owns u p
                     then mkResponse HTTP_200_OK (patient_body p)
                     else forbidden_response), db)).
Proof.
  intros db u pk. split.
  - intro Hnone.
    unfold PatientDetailView_get, dispatch, bind, query,
      PatientDetailView_retrieve, PatientDetailView_get_object, bind, query.
    rewrite check_permissions_PatientDetailView.
    rewrite (find_patient_None _ _ Hnone). reflexivity.
  - intros pr p Hp Hfind.
    unfold PatientDetailView_get, dispatch, bind, query,
      PatientDetailView_retrieve, PatientDetailView_get_object, bind, query.
    rewrite check_permissions_PatientDetailView, Hfind.
    unfold PatientDetailView_permission_classes. simpl.
    rewrite (IsOwnerOrAdmin_has_object_permission_actor db u pr Hp).
    simpl. destruct (actor_is_admin u pr || owns u p); reflexivity.
Qed.

(** ** C9: login failures *)

Lemma authenticate_unknown db name pw :
  (forall u, In u (users db) -> User.username u <> name) ->
  authenticate db (Some name) (Some pw) = None.
Proof.
  intro H. simpl.
  destruct (find _ _) eqn:E; [|reflexivity].
  apply find_some in E. destruct E as [Hin Heq].
  apply String.eqb_eq in Heq. exfalso. exact (H _ Hin Heq).
Qed.

Lemma authenticate_wrong_password db name pw :
  (forall u, In u (users db) -> User.username u = name -> User.password u <> pw) ->
  authenticate db (Some name) (Some pw) = None.
Proof.
  intro H. simpl.
  destruct (find _ _) as [v|] eqn:E; [|reflexivity].
  apply find_some in E. destruct E as [Hin Heq].
  apply String.eqb_eq in Heq.
  destruct (String.eqb (User.password v) pw) eqn:Epw; [|reflexivity].
  apply String.eqb_eq in Epw. exfalso. exact (H _ Hin Heq Epw).
Qed.

Lemma login_view_rejected db data key :
  authenticate db (LoginData.username data) (LoginData.password data) = None ->
  login_view data key db = (Returned invalid_credentials_response, db).
Proof.
  intro H. unfold login_view, dispatch, bind, query, login_view_handler.
  simpl. rewrite H. reflexivity.
Qed.

(** C9. A login with a user name no user has and a login with the name of
    a stored user but a password that is not that user's get the same
    answer, 401 with detail "Invalid credentials", and both leave the
    database as it was. *)
Theorem login_failures_indistinguishable :
  forall (db : DB) (known : User.t)
         (name1 pw1 key1 name2 pw2 key2 : string),
    (forall u, In u (users db) -> User.username u <> name1) ->
    In known (users db) ->
    User.username known = name2 ->
    (forall u, In u (users db) -> User.username u = name2 ->
               User.password u <> pw2) ->
    login_view (LoginData.mk (Some name1) (Some pw1)) key1 db
    = login_view (LoginData.mk (Some name2) (Some pw2)) key2 db
    /\ login_view (LoginData.mk (Some name1) (Some pw1)) key1 db
       = (Returned invalid_credentials_response, db).
Proof.
  intros db known name1 pw1 key1 name2 pw2 key2 Hunknown _ _ Hwrong.
  rewrite !login_view_rejected.
  - split; reflexivity.
  - apply authenticate_wrong_password, Hwrong.
  - apply authenticate_unknown, Hunknown.
Qed.

(** ** Create patient *)

(** Case analysis on the innermost tests of the goal. *)
Ltac break_match :=
  repeat match goal with
         | |- context [match ?x with _ => _ end] =>
             lazymatch x with
             | context [match _ with _ => _ end] => fail
             | _ => destruct x eqn:?
             end; simpl
         end.

(** Validation of a patient either yields the validated data or fails with
    a dictionary of field errors. *)
Lemma PatientSerializer_run_validation_cases data :
  (exists vd, PatientSerializer_run_validation data = Ok vd)
  \/ (exists errs,
        PatientSerializer_run_validation data
        = Raise (ValidationError (vdict errs))).
Proof.
  destruct data as [i [n|] [a|] [g|] [ad|] cb ca];
    unfold PatientSerializer_run_validation, CharField, IntegerField,
      ChoiceField, PatientSerializer_validate_age, invalid; simpl;
    break_match; simpl; eauto.
Qed.

(** The read-only fields of the request body are never read. *)
Lemma PatientSerializer_run_validation_read_only i n a g ad cb ca i' cb' ca' :
  PatientSerializer_run_validation (PatientData.mk i n a g ad cb ca)
  = PatientSerializer_run_validation (PatientData.mk i' n a g ad cb' ca').
Proof. reflexivity. Qed.

(** What [POST /patients/] does for an actor. *)
Lemma PatientListCreateView_post_actor db u pr data now :
  User_profile db u = Ok pr ->
  PatientListCreateView_post (Some u) data now db
  = match PatientSerializer_run_validation data with
    | Ok vd =>
        if User.is_superuser u || Role_eqb (Profile.role pr) doctor
        then (Returned (mkResponse HTTP_201_CREATED
                          (patient_body (new_patient db u vd now))),
              with_patient db (new_patient db u vd now))
        else (Returned only_doctors_response, db)
    | Raise e => (handle_exception e, db)
    end.
Proof.
  intro Hp.
  unfold PatientListCreateView_post, dispatch, bind, query,
    PatientListCreateView_create, bind, query.
  rewrite (check_permissions_PatientListCreateView db u pr Hp).
  destruct (PatientSerializer_run_validation data) as [vd|e]; [|reflexivity].
  unfold PatientListCreateView_perform_create.
  rewrite (hasattr_profile_and_role_actor db u pr Hp). simpl.
  destruct (User.is_superuser u || Role_eqb (Profile.role pr) doctor);
    reflexivity.
Qed.

(** C6. Whenever create-patient answers 201, the request came from an
    authenticated user, the answer carries the stored patient, that patient
    is the one row added to the table, and its [created_by] is the acting
    user; the same request with any other values sent for the read-only
    fields [id], [created_by] and [created_at] has the same outcome. *)
Theorem create_patient_created_by_is_actor :
  forall (db db' : DB) (user : option User.t) (payload : PatientData.t)
         (now : Z) (r : Response),
    PatientListCreateView_post user payload now db = (Returned r, db') ->
    status r = HTTP_201_CREATED ->
    exists (u : User.t) (p : Patient.t),
      user = Some u
      /\ data r = patient_body p
      /\ patients db' = (patients db ++ [p])%list
      /\ Patient.created_by p = User.id u
      /\ forall (id' created_by' created_at' : option Z),
           PatientListCreateView_post user
             (PatientData.mk id' (PatientData.name payload) (PatientData.age payload)
                (PatientData.gender payload) (PatientData.address payload)
                created_by' created_at')
             now db
           = (Returned r, db').
Proof.
  intros db db' user payload now r Hpost Hst.
  destruct user as [u|].
  2:{ compute in Hpost. inversion Hpost; subst. discriminate Hst. }
  destruct (User_profile db u) as [pr|e] eqn:Hp.
  2:{ unfold PatientListCreateView_post, dispatch, bind, query in Hpost.
      simpl in Hpost. unfold IsDoctor_has_permission, profile_role in Hpost.
      simpl in Hpost. rewrite Hp in Hpost. simpl in Hpost.
      unfold User_profile in Hp. destruct (find_profile db (User.id u));
        inversion Hp; subst. compute in Hpost. discriminate Hpost. }
  assert (Hro : forall i' cb' ca',
             PatientSerializer_run_validation
               (PatientData.mk i' (PatientData.name payload) (PatientData.age payload)
                  (PatientData.gender payload) (PatientData.address payload) cb' ca')
             = PatientSerializer_run_validation payload).
  { intros. destruct payload. apply PatientSerializer_run_validation_read_only. }
  pose proof (PatientListCreateView_post_actor db u pr payload now Hp) as Heq.
  rewrite Hpost in Heq.
  destruct (PatientSerializer_run_validation_cases payload) as [[vd Hv]|[errs Hv]];
    rewrite Hv in Heq.
  - destruct (User.is_superuser u || Role_eqb (Profile.role pr) doctor) eqn:Hd;
      inversion Heq; subst; [|discriminate Hst].
    exists u, (new_patient db u vd now).
    repeat split.
    intros i' cb' ca'.
    rewrite (PatientListCreateView_post_actor db u pr _ now Hp).
    rewrite Hro, Hv, Hd. reflexivity.
  - compute in Heq. inversion Heq; subst. discriminate Hst.
Qed.

(** C5, as stated, fails: an ordinary user with role [admin] satisfies
    [isAdmin] and sends a request that validates, yet create-patient does
    not answer with a created patient and stores nothing. *)
Lemma create_patient_refused_for_admin_role :
  User.is_superuser staff_admin = false
  /\ profile_role fixture (Some staff_admin) = Ok admin
  /\ IsAdmin_has_permission fixture (Some staff_admin) = Ok true
  /\ (exists vd, PatientSerializer_run_validation new_patient_data = Ok vd)
  /\ ~ (exists p db',
          PatientListCreateView_post (Some staff_admin) new_patient_data 200
                                     fixture
          = (Returned (mkResponse HTTP_201_CREATED (patient_body p)), db'))
  /\ snd (PatientListCreateView_post (Some staff_admin) new_patient_data 200
                                     fixture) = fixture.
Proof.
  repeat split.
  - eexists. vm_compute. reflexivity.
  - intros (p & db' & H). vm_compute in H. discriminate H.
Qed.

(** C5, amended. For every authenticated actor and every request that
    validates: a superuser or a user with role [doctor] gets 201, and the
    patient of the request is stored with the actor as [created_by]; an
    ordinary user with role [admin] passes the permission gate of the
    endpoint but is refused with the message "Only doctors can create
    patients.", and nothing is stored. *)
Theorem create_patient_superuser_or_doctor :
  forall (db : DB) (u : User.t) (pr : Profile.t) (payload : PatientData.t)
         (vd : PatientAttrs.t) (now : Z),
    User_profile db u = Ok pr ->
    PatientSerializer_run_validation payload = Ok vd ->
    (User.is_superuser u = true \/ Profile.role pr = doctor ->
     PatientListCreateView_post (Some u) payload now db
     = (Returned (mkResponse HTTP_201_CREATED
                    (patient_body (new_patient db u vd now))),
        with_patient db (new_patient db u vd now)))
    /\
    (User.is_superuser u = false -> Profile.role pr = admin ->
     check_permissions PatientListCreateView_permission_classes db (Some u)
     = Ok tt
     /\ exists st : Z,
         st <> HTTP_201_CREATED
         /\ PatientListCreateView_post (Some u) payload now db
            = (Returned (mkResponse st
                           (detail_body "Only doctors can create patients."
                                        (Some st))), db)).
Proof.
  intros db u pr payload vd now Hp Hv.
  rewrite (PatientListCreateView_post_actor db u pr payload now Hp), Hv.
  split.
  - intros [Hs|Hr]; [rewrite Hs | rewrite Hr, orb_true_r]; reflexivity.
  - intros Hs Hr. split.
    + apply (check_permissions_PatientListCreateView db u pr Hp).
    + exists HTTP_500_INTERNAL_SERVER_ERROR. rewrite Hs, Hr.
      split; [discriminate | reflexivity].
Qed.

(** ** C1: signup *)

(** C1 (the code differs). On an empty database the two sign-up requests
    of tests.py -- fresh user name and e-mail, matching passwords, role
    [doctor] resp. [admin] -- are both answered 400 "Username or email
    already exists.": [create_user] fires [create_user_profile], and the
    serializer's own [Profile.objects.create] then violates the one-to-one
    constraint.  The user row stays, with the receiver's profile, whose
    role is [doctor] also when [admin] was requested; no token is
    issued. *)
Theorem signup_fresh_user_answered_400 :
  signup signup_doctor_data "k" empty_db
  = (Returned already_exists_response,
     mkDB [User.mk 1 "testdoctor" "doctor@example.com" "password123" false]
          [Profile.mk 1 1 doctor] [] [] [])
  /\ signup signup_admin_data "k" empty_db
     = (Returned already_exists_response,
        mkDB [User.mk 1 "testadmin" "admin@example.com" "password123" false]
             [Profile.mk 1 1 doctor] [] [] []).
Proof. split; vm_compute; reflexivity. Qed.

(** ** C2: list the records of a patient *)

(** C2 (the code differs). doctor1 asks for the records of patient A, whom
    doctor1 created.  The view hands the patient to
    [IsPatientRecordOwnerOrAdmin.has_object_permission], which reads
    [obj.patient]: the authorization decision raises [AttributeError], no
    handler answers it, and the caller gets a server error instead of the
    two records.  The same happens for a patient of another doctor, where a
    403 was due.  An admin is answered before [obj.patient] is read. *)
Theorem list_records_raises_for_owner :
  Patient_objects_get fixture 1 = Ok patient1_doc1
  /\ owns doctor1 patient1_doc1 = true
  /\ IsDoctor_has_permission fixture (Some doctor1) = Ok true
  /\ PatientMedicalRecordListView_get (Some doctor1) 1 fixture
     = (Uncaught (AttributeError "Patient" "patient"), fixture)
  /\ PatientMedicalRecordListView_get (Some doctor1) 3 fixture
     = (Uncaught (AttributeError "Patient" "patient"), fixture)
  /\ PatientMedicalRecordListView_get (Some admin_user) 1 fixture
     = (Returned (mkResponse HTTP_200_OK
                    (record_list_body [record2_doc1; record1_doc1])), fixture).
Proof. repeat split. Qed.

(** ** C3: add a record, refusals *)

(** C3 (the code differs). doctor1 posts a record for patient C of doctor2:
    [validate_patient] rejects the field, so the answer is 400 with the
    message filed under the field [patient], not 403 with the message as
    [detail].  doctor1 posts a record for patient id 999, which does not
    exist: the related field rejects the id, so the answer is 400, not
    404.  Neither request reaches [perform_create]. *)
Theorem add_record_refusals_are_400 :
  MedicalRecordAddView_post (Some doctor1) (record_for_patient 3) 200 fixture
  = (Returned
       (mkResponse HTTP_400_BAD_REQUEST
          (errors_body
             [("patient",
               [Msg "You can only add medical records to your own patients."])]
             (Some HTTP_400_BAD_REQUEST))),
     fixture)
  /\ find_patient fixture 999 = None
  /\ MedicalRecordAddView_post (Some doctor1) (record_for_patient 999) 200
                               fixture
     = (Returned
          (mkResponse HTTP_400_BAD_REQUEST
             (errors_body [("patient", [Code "does_not_exist"])]
                          (Some HTTP_400_BAD_REQUEST))),
        fixture).
Proof. repeat split. Qed.

(** ** C4: add a record, the gate *)

(** C4 (the code differs). The gate of add-record is
    [IsAuthenticated, IsDoctor]: the superuser of tests.py, whose role is
    [admin], and an ordinary user with role [admin] are both answered 403
    when they post a record for an existing patient, and no record is
    stored. *)
Theorem add_record_gate_refuses_admin :
  IsAdmin_has_permission fixture (Some admin_user) = Ok true
  /\ find_patient fixture 3 = Some patient3_doc2
  /\ MedicalRecordAddView_post (Some admin_user) (record_for_patient 3) 200
                               fixture
     = (Returned forbidden_response, fixture)
  /\ MedicalRecordAddView_post (Some staff_admin) (record_for_patient 3) 200
                               fixture
     = (Returned forbidden_response, fixture).
Proof. repeat split. Qed.

(** ** C10: every user has a profile *)

(** *** Primary keys *)

Lemma next_id_gt l x : In x l -> x < next_id l.
Proof.
  unfold next_id. induction l as [|y l IH]; cbn [fold_right In]; [tauto|].
  intros [Hx|H]; [subst y|specialize (IH H)]; lia.
Qed.

Lemma next_id_fresh l : ~ In (next_id l) l.
Proof. intro H. apply next_id_gt in H. lia. Qed.

Lemma NoDup_map_eq {A B} (f : A -> B) l a b :
  NoDup (map f l) -> In a l -> In b l -> f a = f b -> a = b.
Proof.
  induction l as [|x l IH]; simpl; [tauto|].
  intros Hnd Ha Hb Heq. inversion Hnd as [|? ? Hx Hnd']; subst.
  destruct Ha as [->|Ha], Hb as [->|Hb]; auto.
  - exfalso. apply Hx. rewrite Heq. apply in_map, Hb.
  - exfalso. apply Hx. rewrite <- Heq. apply in_map, Ha.
Qed.

(** *** Profiles of a user *)

Lemma existsb_profile_user l uid :
  existsb (fun p => Profile.user p =? uid) l = true
  <-> In uid (map Profile.user l).
Proof.
  rewrite existsb_exists, in_map_iff.
  split; intros (p & H1 & H2); exists p.
  - apply Z.eqb_eq in H2. tauto.
  - rewrite Z.eqb_eq. tauto.
Qed.

Lemma find_profile_In db uid :
  In uid (map Profile.user (profiles db)) ->
  exists p, find_profile db uid = Some p
            /\ In p (profiles db) /\ Profile.user p = uid.
Proof.
  intro H. unfold find_profile.
  destruct (find _ _) as [p|] eqn:E.
  - exists p. apply find_some in E. rewrite Z.eqb_eq in E. tauto.
  - exfalso. apply in_map_iff in H. destruct H as (p & Hu & Hin).
    apply (find_none _ _ E) in Hin. apply Z.eqb_neq in Hin. tauto.
Qed.

Lemma find_app_last {A} (f : A -> bool) l x :
  existsb f l = false -> f x = true -> find f (l ++ [x]) = Some x.
Proof.
  induction l as [|y l IH]; simpl; intros He Hx.
  - rewrite Hx. reflexivity.
  - apply orb_false_iff in He. destruct He as [Hy He].
    rewrite Hy. apply IH; assumption.
Qed.

(** Saving a stored profile row rewrites the table to itself. *)
Lemma map_update_stored l p :
  NoDup (map Profile.id l) -> In p l ->
  map (fun q => if Profile.id q =? Profile.id p then p else q) l = l.
Proof.
  intros Hnd Hin. rewrite <- (map_id l) at 2.
  apply map_ext_in. intros q Hq.
  destruct (Profile.id q =? Profile.id p) eqn:E; [|reflexivity].
  apply Z.eqb_eq in E. symmetry.
  exact (NoDup_map_eq Profile.id l q p Hnd Hq Hin E).
Qed.

Lemma Profile_save_stored db p :
  NoDup (map Profile.id (profiles db)) -> In p (profiles db) ->
  Profile_save p db = (Ok tt, db).
Proof.
  intros Hnd Hin. unfold Profile_save.
  rewrite (map_update_stored _ _ Hnd Hin). destruct db; reflexivity.
Qed.

Lemma identity_ok_same db db' :
  users db' = users db -> profiles db' = profiles db ->
  identity_ok db -> identity_ok db'.
Proof. intros Hu Hp [H1 H2 H3]. split; rewrite ?Hu, ?Hp; assumption. Qed.

Lemma identity_ok_empty : identity_ok empty_db.
Proof. split; simpl; [constructor | | ]; intros x []. Qed.

Lemma identity_ok_profile db u :
  identity_ok db -> In u (users db) ->
  exists p, User_profile db u = Ok p
            /\ In p (profiles db) /\ Profile.user p = User.id u.
Proof.
  intros [_ H2 _] Hin.
  destruct (find_profile_In db (User.id u)) as (p & Hf & Hp).
  - apply H2, in_map, Hin.
  - exists p. unfold User_profile. rewrite Hf. tauto.
Qed.

Lemma identity_ok_with_user db name email pw su :
  identity_ok db ->
  identity_ok (with_user db (created_user db name email pw su)
                         (created_profile db)).
Proof.
  intros [H1 H2 H3]. split; simpl; rewrite !map_app; simpl.
  - apply NoDup_app_remove_l with (l := []). simpl.
    apply Permutation_NoDup with
      (l := next_id (map Profile.id (profiles db)) :: map Profile.id (profiles db)).
    + apply Permutation_cons_append.
    + constructor; [apply next_id_fresh | exact H1].
  - intros x Hx. apply in_app_or in Hx. apply in_or_app.
    destruct Hx as [Hx|Hx]; [left; apply H2, Hx | right; exact Hx].
  - intros x Hx. apply in_app_or in Hx. apply in_or_app.
    destruct Hx as [Hx|Hx]; [left; apply H3, Hx | right; exact Hx].
Qed.

(** [user.save()] of a new user: a taken user name is refused by the
    table and nothing is written; a fresh one is stored together with a
    profile of the default role. *)
Lemma User_save_new_spec db name email pw su :
  identity_ok db ->
  User_save_new name email pw su db
  = if existsb (fun u => String.eqb (User.username u) name) (users db)
    then (Raise IntegrityError, db)
    else (Ok (created_user db name email pw su),
          with_user db (created_user db name email pw su) (created_profile db)).
Proof.
  intros [H1 H2 H3].
  unfold User_save_new, bind, User_insert.
  destruct (existsb _ (users db)) eqn:Ename; [reflexivity|].
  unfold post_save_User, bind, create_user_profile, bind,
    Profile_objects_create. simpl.
  assert (Hfresh : existsb
            (fun p => Profile.user p =? next_id (map User.id (users db)))
            (profiles db) = false).
  { apply not_true_is_false. rewrite existsb_profile_user.
    intro Hin. apply H3 in Hin. exact (next_id_fresh _ Hin). }
  rewrite Hfresh. unfold ret, save_user_profile, bind, query, User_profile,
    find_profile. simpl.
  rewrite (find_app_last _ _ _ Hfresh) by (simpl; apply Z.eqb_refl).
  fold (created_profile db). unfold Profile_save. simpl. rewrite map_app. simpl.
  rewrite Z.eqb_refl.
  replace (map _ (profiles db)) with (profiles db); [reflexivity|].
  rewrite <- (map_id (profiles db)) at 1.
  apply map_ext_in. intros q Hq.
  destruct (Profile.id q =? _) eqn:E; [|reflexivity].
  apply Z.eqb_eq in E. exfalso.
  apply (next_id_fresh (map Profile.id (profiles db))).
  rewrite <- E. apply in_map, Hq.
Qed.

Lemma User_profile_with_user db name email pw su :
  identity_ok db ->
  User_profile (with_user db (created_user db name email pw su)
                          (created_profile db))
               (created_user db name email pw su)
  = Ok (created_profile db).
Proof.
  intros [H1 H2 H3]. unfold User_profile, find_profile. simpl.
  rewrite find_app_last; [reflexivity | | simpl; apply Z.eqb_refl].
  apply not_true_is_false. rewrite existsb_profile_user.
  intro Hin. apply H3 in Hin. exact (next_id_fresh _ Hin).
Qed.

(** A request changes the database only through its handler. *)
Lemma dispatch_snd perms user h db :
  snd (dispatch perms user h db) = db
  \/ snd (dispatch perms user h db) = snd (h db).
Proof.
  unfold dispatch, bind, query.
  destruct (check_permissions perms db user); [right|left; reflexivity].
  destruct (h db) as [[r|e] db']; reflexivity.
Qed.

Lemma same_identity_refl db : same_identity db db.
Proof. split; reflexivity. Qed.

Lemma dispatch_same_identity perms user h db :
  same_identity db (snd (h db)) ->
  same_identity db (snd (dispatch perms user h db)).
Proof.
  intro H. destruct (dispatch_snd perms user h db) as [E|E]; rewrite E;
    [apply same_identity_refl | exact H].
Qed.

Ltac same_identity :=
  first [ apply same_identity_refl | split; reflexivity ].

Lemma PatientListCreateView_create_same_identity user payload now db :
  same_identity db (snd (PatientListCreateView_create user payload now db)).
Proof.
  unfold PatientListCreateView_create, bind, query,
    PatientListCreateView_perform_create.
  destruct (PatientSerializer_run_validation payload); [|same_identity].
  destruct (negb _); [same_identity|].
  destruct user; same_identity.
Qed.

Lemma MedicalRecordAddView_create_same_identity user payload now db :
  same_identity db (snd (MedicalRecordAddView_create user payload now db)).
Proof.
  unfold MedicalRecordAddView_create, bind, query,
    MedicalRecordAddView_perform_create.
  destruct (MedicalRecordSerializer_run_validation db user payload);
    [|same_identity].
  destruct (get_patient_of_request db payload) as [p|e].
  - destruct (_ && _); same_identity.
  - destruct e; same_identity.
Qed.

Lemma Token_objects_get_or_create_same_identity uid key db :
  same_identity db (snd (Token_objects_get_or_create uid key db)).
Proof.
  unfold Token_objects_get_or_create.
  destruct (find _ _); same_identity.
Qed.

Lemma login_view_handler_same_identity payload key db :
  identity_ok db ->
  same_identity db (snd (login_view_handler payload key db)).
Proof.
  intro Hok. unfold login_view_handler.
  destruct (authenticate db _ _) as [user|] eqn:Ea; [|same_identity].
  assert (Hin : In user (users db)).
  { unfold authenticate in Ea.
    destruct (LoginData.username payload) as [name|]; [|discriminate Ea].
    destruct (LoginData.password payload) as [pw|]; [|discriminate Ea].
    destruct (find _ (users db)) as [v|] eqn:Ef; [|discriminate Ea].
    apply find_some in Ef.
    destruct (String.eqb (User.password v) pw); [|discriminate Ea].
    inversion Ea; subst. tauto. }
  destruct (identity_ok_profile db user Hok Hin) as (p & Hp & Hpin & _).
  unfold login, User_save, post_save_User, create_user_profile,
    save_user_profile, bind, ret, query.
  rewrite Hp, (Profile_save_stored db p (profile_ids_distinct db Hok) Hpin).
  pose proof (Token_objects_get_or_create_same_identity (User.id user) key db)
    as Ht.
  destruct (Token_objects_get_or_create (User.id user) key db) as [[tc|e] db1];
    simpl in *; [|exact Ht].
  match goal with
  | |- context [match ?x with _ => _ end] => destruct x
  end; exact Ht.
Qed.

Lemma Profile_objects_create_taken db uid r :
  In uid (map Profile.user (profiles db)) ->
  Profile_objects_create uid r db = (Raise IntegrityError, db).
Proof.
  intro H. apply existsb_profile_user in H.
  unfold Profile_objects_create. rewrite H. reflexivity.
Qed.

(** What [signup] does with a request in a database whose identity tables
    are in order: whenever the request validates and carries an e-mail
    address, the answer is 400 "Username or email already exists." -- for
    a taken user name because the user table refuses the row, for a fresh
    one because the user already has the receiver's profile when the
    serializer creates its own. *)
Lemma signup_handler_spec db payload key :
  identity_ok db ->
  signup_handler payload key db
  = match UserRegistrationSerializer_run_validation db payload with
    | Ok vd =>
        match SignupAttrs.email vd with
        | Some em =>
            (Ok already_exists_response,
             if existsb (fun u => String.eqb (User.username u)
                                             (SignupAttrs.username vd))
                        (users db)
             then db
             else with_user db
                    (created_user db (SignupAttrs.username vd) em
                                  (SignupAttrs.password vd) false)
                    (created_profile db))
        | None => (Raise (KeyError "email"), db)
        end
    | Raise (ValidationError d) =>
        (Ok (mkResponse HTTP_400_BAD_REQUEST
               (errors_body (serializer_errors d) None)), db)
    | Raise e => (Raise e, db)
    end.
Proof.
  intro Hok. unfold signup_handler.
  destruct (UserRegistrationSerializer_run_validation db payload) as [vd|e];
    [|reflexivity].
  unfold try_except, UserRegistrationSerializer_create, bind, query,
    getitem_email.
  destruct (SignupAttrs.email vd) as [em|]; [|reflexivity].
  unfold User_objects_create_user.
  rewrite (User_save_new_spec db _ _ _ _ Hok).
  destruct (existsb _ (users db)); [reflexivity|].
  rewrite Profile_objects_create_taken; [reflexivity|].
  simpl. rewrite map_app. apply in_or_app. right. left. reflexivity.
Qed.

Lemma signup_handler_identity_ok payload key db :
  identity_ok db -> identity_ok (snd (signup_handler payload key db)).
Proof.
  intro Hok. rewrite (signup_handler_spec db payload key Hok).
  destruct (UserRegistrationSerializer_run_validation db payload) as [vd|e].
  - destruct (SignupAttrs.email vd) as [em|]; [|exact Hok]. simpl.
    destruct (existsb _ (users db)); [exact Hok|].
    apply identity_ok_with_user, Hok.
  - destruct e; exact Hok.
Qed.

Lemma step_identity_ok db db' : identity_ok db -> step db db' -> identity_ok db'.
Proof.
  intros Hok Hstep.
  assert (Hsame : forall d, same_identity db d -> identity_ok d).
  { intros d [Hu Hp]. exact (identity_ok_same db d Hu Hp Hok). }
  destruct Hstep as [name email pw | name email pw | p r Hin | payload key
                    | payload key | user | user payload now | user pk
                    | user payload now | user pk].
  - unfold User_objects_create_user. rewrite (User_save_new_spec _ _ _ _ _ Hok).
    destruct (existsb _ _); [exact Hok | apply identity_ok_with_user, Hok].
  - unfold User_objects_create_superuser.
    rewrite (User_save_new_spec _ _ _ _ _ Hok).
    destruct (existsb _ _); [exact Hok | apply identity_ok_with_user, Hok].
  - destruct Hok as [H1 H2 H3].
    assert (Hids : map Profile.id
              (map (fun q => if Profile.id q =? Profile.id p
                             then Profile.mk (Profile.id p) (Profile.user p) r
                             else q) (profiles db))
            = map Profile.id (profiles db)).
    { rewrite map_map. apply map_ext. intro q.
      destruct (Profile.id q =? Profile.id p) eqn:E; [|reflexivity].
      apply Z.eqb_eq in E. simpl. congruence. }
    assert (Husers : map Profile.user
              (map (fun q => if Profile.id q =? Profile.id p
                             then Profile.mk (Profile.id p) (Profile.user p) r
                             else q) (profiles db))
            = map Profile.user (profiles db)).
    { rewrite map_map. apply map_ext_in. intros q Hq.
      destruct (Profile.id q =? Profile.id p) eqn:E; [|reflexivity].
      apply Z.eqb_eq in E. simpl.
      rewrite (NoDup_map_eq Profile.id _ q p H1 Hq Hin E). reflexivity. }
    split; simpl; rewrite ?Hids, ?Husers; assumption.
  - unfold signup.
    destruct (dispatch_snd [] None (signup_handler payload key) db) as [E|E];
      rewrite E; [exact Hok | apply signup_handler_identity_ok, Hok].
  - apply Hsame, dispatch_same_identity,
      login_view_handler_same_identity, Hok.
  - apply Hsame, dispatch_same_identity.
    unfold PatientListCreateView_list, bind, query.
    destruct (PatientListCreateView_get_queryset db user); same_identity.
  - apply Hsame, dispatch_same_identity,
      PatientListCreateView_create_same_identity.
  - apply Hsame, dispatch_same_identity.
    unfold PatientDetailView_retrieve, bind, query.
    destruct (PatientDetailView_get_object db user pk); same_identity.
  - apply Hsame, dispatch_same_identity,
      MedicalRecordAddView_create_same_identity.
  - apply Hsame, dispatch_same_identity.
    unfold PatientMedicalRecordListView_list, bind, query.
    destruct (PatientMedicalRecordListView_get_queryset db user pk);
      same_identity.
Qed.

Lemma reachable_identity_ok db : reachable db -> identity_ok db.
Proof.
  induction 1 as [|db db' _ IH Hstep].
  - exact identity_ok_empty.
  - exact (step_identity_ok db db' IH Hstep).
Qed.

(** The database of the tests is one the application can be in. *)
Lemma fixture_reachable : reachable fixture.
Proof.
  pose (d1 := snd (User_objects_create_user "doctor1" EmptyString "doc1pass"
                                            empty_db)).
  pose (d2 := snd (User_objects_create_user "doctor2" EmptyString "doc2pass" d1)).
  pose (d3 := snd (User_objects_create_superuser "admin" EmptyString
                                                 "adminpass" d2)).
  pose (d4 := snd (Profile_save (Profile.mk 3 3 admin) d3)).
  pose (d5 := snd (User_objects_create_user "staff" EmptyString "staffpass" d4)).
  pose (d6 := snd (Profile_save (Profile.mk 4 4 admin) d5)).
  pose (d7 := snd (PatientListCreateView_post (Some doctor1)
                     (PatientData.mk None (Some "Patient A") (Some 30)
                        (Some "Male") (Some "123 Main St") None None) 100 d6)).
  pose (d8 := snd (PatientListCreateView_post (Some doctor1)
                     (PatientData.mk None (Some "Patient B") (Some 45)
                        (Some "Female") (Some "456 Oak Ave") None None) 101 d7)).
  pose (d9 := snd (PatientListCreateView_post (Some doctor2)
                     (PatientData.mk None (Some "Patient C") (Some 25)
                        (Some "Other") (Some "789 Pine Rd") None None) 102 d8)).
  pose (d10 := snd (MedicalRecordAddView_post (Some doctor1)
                      (RecordData.mk (Some 1) (Some "Fever") (Some "Flu")
                                     (Some "Rest")) 103 d9)).
  pose (d11 := snd (MedicalRecordAddView_post (Some doctor1)
                      (RecordData.mk (Some 1) (Some "Cough") (Some "Cold")
                                     (Some "Medication")) 104 d10)).
  assert (E : fixture = d11) by (vm_compute; reflexivity).
  rewrite E.
  assert (H3 : In (Profile.mk 3 3 doctor) (profiles d3))
    by (vm_compute; tauto).
  assert (H5 : In (Profile.mk 4 4 doctor) (profiles d5))
    by (vm_compute; tauto).
  apply reachable_step with d10; [|apply step_record_post].
  apply reachable_step with d9; [|apply step_record_post].
  apply reachable_step with d8; [|apply step_patients_post].
  apply reachable_step with d7; [|apply step_patients_post].
  apply reachable_step with d6; [|apply step_patients_post].
  apply reachable_step with d5;
    [|exact (step_set_role d5 (Profile.mk 4 4 doctor) admin H5)].
  apply reachable_step with d4; [|apply step_create_user].
  apply reachable_step with d3;
    [|exact (step_set_role d3 (Profile.mk 3 3 doctor) admin H3)].
  apply reachable_step with d2; [|apply step_create_superuser].
  apply reachable_step with d1; [|apply step_create_user].
  apply reachable_step with empty_db; [|apply step_create_user].
  apply reachable_empty.
Qed.

(** C10. In every database the application can be in: (1) creating a user
    with a user name not yet taken, by [create_user] or by
    [create_superuser], succeeds, and the user, who had no profile before,
    has one at once, with role [doctor]; the resulting database is again
    one the application can be in; (2) every stored user has a profile, so
    for every authenticated user each check that reads
    [user.profile.role] -- the methods of the four permission classes and
    [validate_patient] -- gets the role: none fails for want of a
    profile. *)
Theorem every_user_gets_a_doctor_profile :
  forall db : DB,
    reachable db ->
    (forall (name email pw : string) (su : bool),
        (forall v, In v (users db) -> User.username v <> name) ->
        exists (u : User.t) (p : Profile.t) (db' : DB),
          (if su then User_objects_create_superuser name email pw db
           else User_objects_create_user name email pw db) = (Ok u, db')
          /\ users db' = (users db ++ [u])%list
          /\ ~ In (User.id u) (map Profile.user (profiles db))
          /\ User_profile db' u = Ok p
          /\ Profile.role p = doctor
          /\ reachable db')
    /\
    (forall u : User.t,
        In u (users db) ->
        exists p : Profile.t,
          User_profile db u = Ok p
          /\ profile_role db (Some u) = Ok (Profile.role p)
          /\ IsDoctor_has_permission db (Some u)
             = Ok (Role_eqb (Profile.role p) doctor)
          /\ IsAdmin_has_permission db (Some u) = Ok (actor_is_admin u p)
          /\ IsPatientRecordOwnerOrAdmin_has_permission db (Some u) = Ok true
          /\ (forall pt : Patient.t,
                 IsOwnerOrAdmin_has_object_permission db (Some u) (PatientObj pt)
                 = Ok (actor_is_admin u p || owns u pt))
          /\ (forall obj : Obj,
                 IsPatientRecordOwnerOrAdmin_has_object_permission
                   db (Some u) obj
                 = if actor_is_admin u p then Ok true
                   else let? pt := getattr_patient db obj in
                        Ok (eq_request_user (Patient.created_by pt) (Some u)))
          /\ (forall value : Patient.t,
                 MedicalRecordSerializer_validate_patient db (Some u) value
                 = if actor_is_admin u p || owns u value then Ok value
                   else invalid
                          (Msg "You can only add medical records to your own patients."))).
Proof.
  intros db Hreach.
  pose proof (reachable_identity_ok db Hreach) as Hok.
  split.
  - intros name email pw su Hfresh.
    assert (Hname : existsb (fun u => String.eqb (User.username u) name)
                            (users db) = false).
    { apply not_true_is_false. rewrite existsb_exists.
      intros (v & Hin & Hv). apply String.eqb_eq in Hv.
      exact (Hfresh v Hin Hv). }
    exists (created_user db name email pw su), (created_profile db),
           (with_user db (created_user db name email pw su)
                      (created_profile db)).
    assert (Hrun : User_save_new name email pw su db
                   = (Ok (created_user db name email pw su),
                      with_user db (created_user db name email pw su)
                                (created_profile db))).
    { rewrite (User_save_new_spec db name email pw su Hok), Hname.
      reflexivity. }
    split; [destruct su; exact Hrun|].
    split; [reflexivity|].
    split.
    { intro Hin. apply (profiles_have_users db Hok) in Hin.
      exact (next_id_fresh _ Hin). }
    split; [apply User_profile_with_user, Hok|].
    split; [reflexivity|].
    apply reachable_step with db; [exact Hreach|].
    replace (with_user db (created_user db name email pw su)
                       (created_profile db))
      with (snd (User_save_new name email pw su db))
      by (rewrite Hrun; reflexivity).
    destruct su; [apply step_create_superuser | apply step_create_user].
  - intros u Hin.
    destruct (identity_ok_profile db u Hok Hin) as (p & Hp & _).
    exists p. split; [exact Hp|].
    split; [apply profile_role_actor, Hp|].
    split; [apply IsDoctor_has_permission_actor, Hp|].
    split; [apply IsAdmin_has_permission_actor, Hp|].
    split.
    + unfold IsPatientRecordOwnerOrAdmin_has_permission.
      rewrite (is_superuser_or_admin_role_actor db u p Hp),
        (profile_role_actor db u p Hp).
      unfold actor_is_admin. simpl.
      destruct (User.is_superuser u), (Profile.role p); reflexivity.
    + split; [|split].
      * intro pt. apply IsOwnerOrAdmin_has_object_permission_actor, Hp.
      * intro obj. unfold IsPatientRecordOwnerOrAdmin_has_object_permission.
        rewrite (is_superuser_or_admin_role_actor db u p Hp). simpl.
        destruct (actor_is_admin u p); reflexivity.
      * intro value. unfold MedicalRecordSerializer_validate_patient.
        rewrite (profile_role_actor db u p Hp).
        unfold actor_is_admin, owns. simpl.
        destruct (User.is_superuser u), (Profile.role p),
          (Patient.created_by value =? User.id u); reflexivity.
Qed.

(** ** The defects of C1-C4, for every input *)

Lemma UserRegistrationSerializer_run_validation_cases db payload :
  (exists vd, UserRegistrationSerializer_run_validation db payload = Ok vd)
  \/ (exists d,
        UserRegistrationSerializer_run_validation db payload
        = Raise (ValidationError d)).
Proof.
  destruct payload as [[n|] em [p|] [p2|] [r|]];
    unfold UserRegistrationSerializer_run_validation,
      UserRegistrationSerializer_to_internal_value,
      UserRegistrationSerializer_validate, UniqueValidator_username,
      CharField, ChoiceField, invalid, run_field, result_bind; simpl;
    break_match; eauto.
Qed.

(** C1, for every request: in a database the application can be in,
    [signup] never answers 201; whatever it answers is a 400. *)
Lemma signup_never_created db payload key r :
  reachable db ->
  fst (signup payload key db) = Returned r ->
  status r = HTTP_400_BAD_REQUEST.
Proof.
  intros Hreach. apply reachable_identity_ok in Hreach.
  unfold signup, dispatch, bind, query. simpl.
  rewrite (signup_handler_spec db payload key Hreach).
  destruct (UserRegistrationSerializer_run_validation_cases db payload)
    as [[vd Hv]|[d Hv]]; rewrite Hv.
  - destruct (SignupAttrs.email vd); simpl; intro H; inversion H; reflexivity.
  - simpl. intro H; inversion H; reflexivity.
Qed.

(** C2, for every doctor: listing the records of an existing patient
    raises for every actor who is not an admin, owner or not; an admin
    gets the patient's records, newest first. *)
Lemma list_records_raises_unless_admin db u pr pk p :
  User_profile db u = Ok pr ->
  find_patient db pk = Some p ->
  PatientMedicalRecordListView_get (Some u) pk db
  = (if actor_is_admin u pr
     then Returned (mkResponse HTTP_200_OK
                      (record_list_body
                         (MedicalRecord_objects_filter_patient db p)))
     else Uncaught (AttributeError "Patient" "patient"), db).
Proof.
  intros Hp Hfind.
  unfold PatientMedicalRecordListView_get, dispatch, bind, query,
    PatientMedicalRecordListView_list, bind, query,
    PatientMedicalRecordListView_get_queryset, Patient_objects_get.
  rewrite Hfind.
  unfold PatientMedicalRecordListView_permission_classes. simpl.
  unfold IsPatientRecordOwnerOrAdmin_has_permission,
    IsPatientRecordOwnerOrAdmin_has_object_permission.
  rewrite (is_superuser_or_admin_role_actor db u pr Hp).
  rewrite (profile_role_actor db u pr Hp). simpl.
  unfold actor_is_admin.
  destruct (User.is_superuser u), (Profile.role pr); reflexivity.
Qed.

Lemma MedicalRecord_objects_filter_patient_spec db p :
  Permutation (MedicalRecord_objects_filter_patient db p)
              (filter (fun r => MedicalRecord.patient r =? Patient.id p)
                      (medical_records db))
  /\ StronglySorted (newer_first MedicalRecord.created_at)
                    (MedicalRecord_objects_filter_patient db p).
Proof.
  split; [apply order_by_created_at_desc_perm
         | apply order_by_created_at_desc_sorted].
Qed.

(** C4, for every admin: whoever has role [admin], superuser or not, is
    refused at the gate of add-record. *)
Lemma add_record_gate_refuses_role_admin db u pr payload now :
  User_profile db u = Ok pr ->
  Profile.role pr = admin ->
  MedicalRecordAddView_post (Some u) payload now db
  = (Returned forbidden_response, db).
Proof.
  intros Hp Hr.
  unfold MedicalRecordAddView_post, dispatch, bind, query,
    MedicalRecordAddView_permission_classes. simpl.
  rewrite (IsDoctor_has_permission_actor db u pr Hp), Hr. reflexivity.
Qed.

(** C3, for every doctor: a record for a patient of somebody else, and a
    record for a patient id that does not exist, are both answered 400
    with the error filed under the field [patient]. *)
Lemma add_record_patient_field_error db u pr pk s d t now :
  User_profile db u = Ok pr ->
  User.is_superuser u = false ->
  Profile.role pr = doctor ->
  match find_patient db pk with
  | Some p => owns u p = false
  | None => True
  end ->
  exists errs,
    MedicalRecordAddView_post (Some u) (RecordData.mk (Some pk) s d t) now db
    = (Returned
         (mkResponse HTTP_400_BAD_REQUEST
            (errors_body
               (("patient",
                 [match find_patient db pk with
                  | Some _ =>
                      Msg "You can only add medical records to your own patients."
                  | None => Code "does_not_exist"
                  end]) :: errs)
               (Some HTTP_400_BAD_REQUEST))),
       db).
Proof.
  intros Hp Hs Hr Hown.
  unfold MedicalRecordAddView_post, dispatch, bind, query,
    MedicalRecordAddView_permission_classes. simpl.
  rewrite (IsDoctor_has_permission_actor db u pr Hp), Hr. simpl.
  unfold MedicalRecordAddView_create, bind, query,
    MedicalRecordSerializer_run_validation, PrimaryKeyRelatedField_Patient,
    MedicalRecordSerializer_validate_patient. simpl.
  destruct (find_patient db pk) as [p|]; simpl.
  - rewrite Hs, Hp. simpl. rewrite Hr. simpl.
    unfold owns in Hown. rewrite Hown.
    unfold CharField, run_field, result_bind, invalid.
    destruct s, d, t; simpl; break_match; eexists; reflexivity.
  - unfold CharField, run_field, result_bind, invalid.
    destruct s, d, t; simpl; break_match; eexists; reflexivity.
Qed.

(** ** The theorems at work on the database of the tests *)

Lemma no_user_named_nonexistent :
  forall u, In u (users fixture) -> User.username u <> "nonexistent".
Proof.
  intros u Hin. simpl in Hin.
  repeat (destruct Hin as [Hin|Hin]; [subst u; discriminate|]).
  destruct Hin.
Qed.

Lemma doctor1_password_is_not_wrongpassword :
  forall u, In u (users fixture) -> User.username u = "doctor1" ->
            User.password u <> "wrongpassword".
Proof.
  intros u Hin. simpl in Hin.
  repeat (destruct Hin as [Hin|Hin]; [subst u; discriminate|]).
  destruct Hin.
Qed.

Lemma no_patient_999 :
  forall p, In p (patients fixture) -> Patient.id p <> 999.
Proof.
  intros p Hin. simpl in Hin.
  repeat (destruct Hin as [Hin|Hin]; [subst p; discriminate|]).
  destruct Hin.
Qed.

(** doctor1 sees patients B and A, in this order, and not patient C. *)
Lemma list_patients_scoped_newest_first_witness :
  User_profile fixture doctor1 = Ok (Profile.mk 1 1 doctor)
  /\ exists ps : list Patient.t,
       PatientListCreateView_get (Some doctor1) fixture
       = (Returned (mkResponse HTTP_200_OK (patient_list_body ps)), fixture)
       /\ Permutation ps [patient1_doc1; patient2_doc1]
       /\ StronglySorted (newer_first Patient.created_at) ps.
Proof.
  split; [reflexivity|].
  destruct (list_patients_scoped_newest_first fixture doctor1
              (Profile.mk 1 1 doctor) eq_refl)
    as (ps & Hget & Hperm & _ & Hsorted).
  exists ps. split; [exact Hget|]. split; [exact Hperm | exact Hsorted].
Defined.

(** Patient 999 is not found; doctor1 may not read patient C but reads
    patient A; the admin reads patient C. *)
Lemma retrieve_patient_not_found_before_forbidden_witness :
  PatientDetailView_get (Some doctor1) 999 fixture
  = (Returned not_found_response, fixture)
  /\ PatientDetailView_get (Some doctor1) 3 fixture
     = (Returned forbidden_response, fixture)
  /\ PatientDetailView_get (Some doctor1) 1 fixture
     = (Returned (mkResponse HTTP_200_OK (patient_body patient1_doc1)), fixture)
  /\ PatientDetailView_get (Some admin_user) 3 fixture
     = (Returned (mkResponse HTTP_200_OK (patient_body patient3_doc2)), fixture).
Proof.
  split; [|split; [|split]].
  - exact (proj1 (retrieve_patient_not_found_before_forbidden
                    fixture doctor1 999) no_patient_999).
  - exact (proj2 (retrieve_patient_not_found_before_forbidden
                    fixture doctor1 3)
                 (Profile.mk 1 1 doctor) patient3_doc2 eq_refl eq_refl).
  - exact (proj2 (retrieve_patient_not_found_before_forbidden
                    fixture doctor1 1)
                 (Profile.mk 1 1 doctor) patient1_doc1 eq_refl eq_refl).
  - exact (proj2 (retrieve_patient_not_found_before_forbidden
                    fixture admin_user 3)
                 (Profile.mk 3 3 admin) patient3_doc2 eq_refl eq_refl).
Defined.

(** The request of [test_login_failure_invalid_credentials] and a login as
    doctor1 with a wrong password. *)
Lemma login_failures_indistinguishable_witness :
  login_view (LoginData.mk (Some "nonexistent") (Some "wrongpassword")) "k1"
             fixture
  = login_view (LoginData.mk (Some "doctor1") (Some "wrongpassword")) "k2"
               fixture
  /\ login_view (LoginData.mk (Some "nonexistent") (Some "wrongpassword")) "k1"
                fixture
     = (Returned invalid_credentials_response, fixture).
Proof.
  apply (login_failures_indistinguishable fixture doctor1
           "nonexistent" "wrongpassword" "k1" "doctor1" "wrongpassword" "k2").
  - exact no_user_named_nonexistent.
  - simpl. left. reflexivity.
  - reflexivity.
  - exact doctor1_password_is_not_wrongpassword.
Defined.

(** doctor1 creates a patient and names doctor2 as [created_by]: the
    patient belongs to doctor1. *)
Lemma create_patient_created_by_is_actor_witness :
  PatientData.created_by new_patient_data = Some (User.id doctor2)
  /\ exists (u : User.t) (p : Patient.t),
       Some doctor1 = Some u
       /\ Patient.created_by p = User.id u
       /\ patients (snd (PatientListCreateView_post (Some doctor1)
                           new_patient_data 200 fixture))
          = (patients fixture ++ [p])%list.
Proof.
  split; [reflexivity|].
  destruct (create_patient_created_by_is_actor fixture
              (snd (PatientListCreateView_post (Some doctor1)
                      new_patient_data 200 fixture))
              (Some doctor1) new_patient_data 200
              (mkResponse HTTP_201_CREATED
                 (patient_body
                    (Patient.mk 4 "New Patient" 28 Female
                                "New Patient Address" 1 200)))
              eq_refl eq_refl)
    as (u & p & Hu & _ & Hps & Hcb & _).
  exists u, p. split; [exact Hu|]. split; [exact Hcb | exact Hps].
Defined.

(** doctor1 and the superuser create the patient; the ordinary admin is let
    through the gate and then refused. *)
Lemma create_patient_superuser_or_doctor_witness :
  fst (PatientListCreateView_post (Some doctor1) new_patient_data 200 fixture)
  = Returned (mkResponse HTTP_201_CREATED
                (patient_body (Patient.mk 4 "New Patient" 28 Female
                                          "New Patient Address" 1 200)))
  /\ exists st : Z,
       st <> HTTP_201_CREATED
       /\ PatientListCreateView_post (Some staff_admin) new_patient_data 200
                                     fixture
          = (Returned (mkResponse st
                         (detail_body "Only doctors can create patients."
                                      (Some st))), fixture).
Proof.
  split.
  - rewrite (proj1 (create_patient_superuser_or_doctor fixture doctor1
                      (Profile.mk 1 1 doctor) new_patient_data
                      (PatientAttrs.mk "New Patient" 28 Female
                                       "New Patient Address")
                      200 eq_refl eq_refl) (or_intror eq_refl)).
    reflexivity.
  - exact (proj2 (proj2 (create_patient_superuser_or_doctor fixture staff_admin
                           (Profile.mk 4 4 admin) new_patient_data
                           (PatientAttrs.mk "New Patient" 28 Female
                                            "New Patient Address")
                           200 eq_refl eq_refl) eq_refl eq_refl)).
Defined.

(** In the database of the tests a new user "doctor3" gets a [doctor]
    profile, and the superuser's role is resolved. *)
Lemma every_user_gets_a_doctor_profile_witness :
  (exists (u : User.t) (p : Profile.t) (db' : DB),
      User_objects_create_user "doctor3" EmptyString "doc3pass" fixture
      = (Ok u, db')
      /\ User_profile db' u = Ok p
      /\ Profile.role p = doctor)
  /\ (exists p : Profile.t, User_profile fixture admin_user = Ok p).
Proof.
  destruct (every_user_gets_a_doctor_profile fixture fixture_reachable)
    as [Hcreate Hhave].
  split.
  - destruct (Hcreate "doctor3" EmptyString "doc3pass" false)
      as (u & p & db' & Hrun & _ & _ & Hp & Hr & _).
    + intros v Hin. simpl in Hin.
      repeat (destruct Hin as [Hin|Hin]; [subst v; discriminate|]).
      destruct Hin.
    + exists u, p, db'. split; [exact Hrun|]. split; [exact Hp | exact Hr].
  - destruct (Hhave admin_user) as (p & Hp & _).
    + simpl. tauto.
    + exists p. exact Hp.
Defined.

(* ================================================================== *)
(** * Further properties of the code *)
(* ================================================================== *)

(** ** The choices of [role] and [gender] *)


(** ** The exception handler *)

(** X2. Whatever exception [custom_exception_handler] turns into a
    response, the body of the response carries a [status_code] equal to
    the HTTP status of the response. *)
Theorem exception_handler_echoes_status :
  forall (exc : Exception) (r : Response),
    custom_exception_handler exc = Ok (Some r) ->
    body_status_code (data r) = Some (status r).
Proof.
  intros exc r H.
  destruct exc as [| m | o a | k | m | m | st d c | [errs|errs]];
    simpl in H; try discriminate H; inversion H; subst; reflexivity.
Qed.

Lemma exception_handler_echoes_status_witness :
  body_status_code (data forbidden_response) = Some HTTP_403_FORBIDDEN.
Proof.
  exact (exception_handler_echoes_status PermissionDenied forbidden_response
                                         eq_refl).
Defined.



(** ** Requests without credentials *)

(** X4. Each of the five endpoints behind [IsAuthenticated] answers a
    request without credentials 401, whatever the path argument or the
    body -- so before the body is validated -- and writes nothing. *)
Theorem unauthenticated_requests_are_401 :
  forall (db : DB) (pk now : Z) (patient_data : PatientData.t)
         (record_data : RecordData.t),
    PatientListCreateView_get None db
    = (Returned unauthenticated_response, db)
    /\ PatientListCreateView_post None patient_data now db
       = (Returned unauthenticated_response, db)
    /\ PatientDetailView_get None pk db
       = (Returned unauthenticated_response, db)
    /\ MedicalRecordAddView_post None record_data now db
       = (Returned unauthenticated_response, db)
    /\ PatientMedicalRecordListView_get None pk db
       = (Returned unauthenticated_response, db).
Proof. intros. repeat split. Qed.

(** ** Signup: validation *)



(** ** Patients: validation *)

(** Case analysis on the innermost tests of a hypothesis. *)
Ltac break_match_in H :=
  repeat match type of H with
         | context [match ?x with _ => _ end] =>
             lazymatch x with
             | context [match _ with _ => _ end] => fail
             | _ => destruct x eqn:?
             end; simpl in H
         end.


Lemma gender_of_choice_inv s g :
  gender_of_choice s = Some g -> s = gender_value g.
Proof.
  unfold gender_of_choice. simpl. intro H.
  break_match_in H; try discriminate H; inversion H; subst;
    match goal with
    | E : String.eqb _ _ = true |- _ => apply String.eqb_eq in E; exact E
    end.
Qed.

(** What a patient that validated looks like. *)
Lemma PatientSerializer_run_validation_Ok payload vd :
  PatientSerializer_run_validation payload = Ok vd ->
  PatientData.name payload = Some (PatientAttrs.name vd)
  /\ PatientAttrs.name vd <> EmptyString
  /\ (String.length (PatientAttrs.name vd) <= 255)%nat
  /\ PatientData.age payload = Some (PatientAttrs.age vd)
  /\ 0 < PatientAttrs.age vd
  /\ PatientData.gender payload = Some (gender_value (PatientAttrs.gender vd))
  /\ PatientData.address payload = Some (PatientAttrs.address vd)
  /\ PatientAttrs.address vd <> EmptyString.
Proof.
  destruct payload as [i [n|] [a|] [g|] [ad|] cb ca];
    unfold PatientSerializer_run_validation, CharField, IntegerField,
      ChoiceField, PatientSerializer_validate_age, invalid, run_field,
      result_bind; simpl; intro H;
    break_match_in H; try discriminate H.
  inversion H; subst; simpl.
  repeat match goal with
         | E : String.eqb _ _ = false |- _ => apply String.eqb_neq in E
         | E : Nat.ltb _ _ = false |- _ => apply Nat.ltb_ge in E
         | E : Z.leb _ _ = false |- _ => apply Z.leb_gt in E
         | E : gender_of_choice _ = Some _ |- _ =>
             apply gender_of_choice_inv in E; subst
         end.
  repeat split; assumption.
Qed.





(** ** Medical records: adding *)

(** What a record that validated looks like: its patient is the stored
    row the id of the body resolves to, and [validate_patient] accepted
    it. *)
Lemma MedicalRecordSerializer_run_validation_Ok db user payload vd :
  MedicalRecordSerializer_run_validation db user payload = Ok vd ->
  (exists pk, RecordData.patient payload = Some pk
              /\ find_patient db pk = Some (RecordAttrs.patient vd))
  /\ MedicalRecordSerializer_validate_patient db user (RecordAttrs.patient vd)
     = Ok (RecordAttrs.patient vd)
  /\ RecordData.symptoms payload = Some (RecordAttrs.symptoms vd)
  /\ RecordData.diagnosis payload = Some (RecordAttrs.diagnosis vd)
  /\ RecordData.treatment payload = Some (RecordAttrs.treatment vd)
  /\ RecordAttrs.symptoms vd <> EmptyString
  /\ RecordAttrs.diagnosis vd <> EmptyString
  /\ RecordAttrs.treatment vd <> EmptyString.
Proof.
  destruct payload as [[pk|] s d t];
    unfold MedicalRecordSerializer_run_validation,
      PrimaryKeyRelatedField_Patient, CharField, invalid; simpl; intro H.
  2:{ unfold run_field, result_bind in H; simpl in H.
      destruct s, d, t; simpl in H; break_match_in H; discriminate H. }
  destruct (find_patient db pk) as [p|] eqn:Hfind; simpl in H.
  2:{ unfold run_field, result_bind in H; simpl in H.
      destruct s, d, t; simpl in H; break_match_in H; discriminate H. }
  destruct (MedicalRecordSerializer_validate_patient db user p)
    as [p'|e] eqn:Hval; simpl in H.
  2:{ unfold run_field, result_bind in H; simpl in H.
      destruct e as [| | | | | | |[errs|errs]]; try discriminate H;
        destruct s, d, t; simpl in H; break_match_in H; discriminate H. }
  unfold run_field, result_bind in H; simpl in H.
  destruct s as [s|], d as [d|], t as [t|]; simpl in H;
    break_match_in H; try discriminate H.
  inversion H; subst; simpl.
  assert (p' = p).
  { unfold MedicalRecordSerializer_validate_patient, invalid, result_bind in Hval.
    break_match_in Hval; try discriminate Hval; inversion Hval; reflexivity. }
  subst p'.
  repeat match goal with
         | E : String.eqb _ _ = false |- _ => apply String.eqb_neq in E
         end.
  split; [exists pk; split; [reflexivity | exact Hfind]|].
  repeat split; assumption.
Qed.

Lemma MedicalRecordAddView_perform_create_validated db user payload vd now :
  MedicalRecordSerializer_run_validation db user payload = Ok vd ->
  MedicalRecordAddView_perform_create user payload vd now db
  = MedicalRecordSerializer_save vd (RecordAttrs.patient vd) now db.
Proof.
  intros Hv.
  destruct (MedicalRecordSerializer_run_validation_Ok db user payload vd Hv)
    as ((pk & Hpk & Hfind) & Hval & _).
  unfold MedicalRecordAddView_perform_create, get_patient_of_request,
    Patient_objects_get.
  rewrite Hpk, Hfind.
  replace (negb (is_superuser user || hasattr_profile_and_role db user admin)
           && negb (eq_request_user
                      (Patient.created_by (RecordAttrs.patient vd)) user))
    with false; [reflexivity|].
  unfold MedicalRecordSerializer_validate_patient, invalid, result_bind in Hval.
  unfold hasattr_profile_and_role.
  destruct (is_superuser user); simpl in *; [reflexivity|].
  destruct (profile_role db user) as [r|e]; [|discriminate Hval].
  destruct (Role_eqb r admin); simpl in *; [reflexivity|].
  destruct (eq_request_user _ user); simpl in *;
    [reflexivity | discriminate Hval].
Qed.

(** X8. After the serializer accepted an add-record body, the checks of
    [perform_create] never fire: the patient exists and, unless the actor
    is a superuser or admin, is the actor's own, so [perform_create] is
    exactly [serializer.save] with the validated patient.  Its "Patient not
    found." and "You can only add medical records to your own patients."
    exceptions are never raised by the endpoint. *)
Theorem add_record_perform_create_only_saves :
  forall (db : DB) (user : option User.t) (payload : RecordData.t)
         (vd : RecordAttrs.t) (now : Z),
    MedicalRecordSerializer_run_validation db user payload = Ok vd ->
    MedicalRecordAddView_perform_create user payload vd now db
    = MedicalRecordSerializer_save vd (RecordAttrs.patient vd) now db.
Proof. exact MedicalRecordAddView_perform_create_validated. Qed.

Lemma add_record_perform_create_only_saves_witness :
  MedicalRecordAddView_perform_create (Some doctor1) (record_for_patient 2)
    (RecordAttrs.mk patient2_doc1 "Headache" "Migraine" "Painkillers") 200
    fixture
  = MedicalRecordSerializer_save
      (RecordAttrs.mk patient2_doc1 "Headache" "Migraine" "Painkillers")
      patient2_doc1 200 fixture.
Proof.
  exact (add_record_perform_create_only_saves fixture (Some doctor1)
           (record_for_patient 2)
           (RecordAttrs.mk patient2_doc1 "Headache" "Migraine" "Painkillers")
           200 eq_refl).
Defined.

(** X9. A doctor who posts a record with the three texts filled in, for a
    patient the id resolves to and who is the doctor's own -- or any
    patient, when the doctor is a superuser -- is answered 201; exactly one
    record is stored, attached to that patient, and nothing else
    changes. *)
Theorem add_record_stores_for_resolved_patient :
  forall (db : DB) (u : User.t) (pr : Profile.t) (pk : Z) (p : Patient.t)
         (s d t : string) (now : Z),
    User_profile db u = Ok pr ->
    Profile.role pr = doctor ->
    find_patient db pk = Some p ->
    User.is_superuser u = true \/ owns u p = true ->
    s <> EmptyString -> d <> EmptyString -> t <> EmptyString ->
    MedicalRecordAddView_post (Some u)
      (RecordData.mk (Some pk) (Some s) (Some d) (Some t)) now db
    = (Returned (mkResponse HTTP_201_CREATED
                   (record_body (new_record db p s d t now))),
       with_record db (new_record db p s d t now)).
Proof.
  intros db u pr pk p s d t now Hp Hr Hfind Hown Hs Hd Ht.
  apply String.eqb_neq in Hs, Hd, Ht.
  assert (Hval : MedicalRecordSerializer_validate_patient db (Some u) p = Ok p).
  { unfold MedicalRecordSerializer_validate_patient.
    rewrite (profile_role_actor db u pr Hp), Hr. simpl.
    unfold owns in Hown.
    destruct (User.is_superuser u); simpl; [reflexivity|].
    destruct Hown as [Hown|Hown]; [discriminate Hown|].
    rewrite Hown. reflexivity. }
  assert (Hv : MedicalRecordSerializer_run_validation db (Some u)
                 (RecordData.mk (Some pk) (Some s) (Some d) (Some t))
               = Ok (RecordAttrs.mk p s d t)).
  { unfold MedicalRecordSerializer_run_validation,
      PrimaryKeyRelatedField_Patient, CharField. simpl.
    rewrite Hfind. simpl. rewrite Hval, Hs, Hd, Ht. reflexivity. }
  unfold MedicalRecordAddView_post, dispatch, bind, query,
    MedicalRecordAddView_permission_classes. simpl check_permissions.
  rewrite (IsDoctor_has_permission_actor db u pr Hp), Hr. simpl.
  unfold MedicalRecordAddView_create, bind, query.
  rewrite Hv.
  rewrite (MedicalRecordAddView_perform_create_validated db (Some u) _ _ now Hv).
  reflexivity.
Qed.

Lemma add_record_stores_for_resolved_patient_witness :
  MedicalRecordAddView_post (Some doctor1)
    (RecordData.mk (Some 2) (Some "Rash") (Some "Allergy")
                   (Some "Antihistamines")) 200 fixture
  = (Returned (mkResponse HTTP_201_CREATED
                 (record_body (MedicalRecord.mk 3 2 "Rash" "Allergy"
                                                "Antihistamines" 200))),
     with_record fixture (MedicalRecord.mk 3 2 "Rash" "Allergy"
                                           "Antihistamines" 200)).
Proof.
  apply (add_record_stores_for_resolved_patient fixture doctor1
           (Profile.mk 1 1 doctor) 2 patient2_doc1
           "Rash" "Allergy" "Antihistamines" 200).
  - reflexivity.
  - reflexivity.
  - reflexivity.
  - right. reflexivity.
  - discriminate.
  - discriminate.
  - discriminate.
Defined.

(** ** The effect of a step *)

Lemma PatientListCreateView_create_effect user payload now db :
  effect db (snd (PatientListCreateView_create user payload now db)).
Proof.
  unfold PatientListCreateView_create, bind, query,
    PatientListCreateView_perform_create.
  destruct (PatientSerializer_run_validation payload) as [vd|e] eqn:Hv;
    [|apply effect_none].
  destruct (negb _); [apply effect_none|].
  destruct user as [u|]; [|apply effect_none].
  exact (effect_patient db u payload vd now Hv).
Qed.

Lemma MedicalRecordAddView_create_effect user payload now db :
  effect db (snd (MedicalRecordAddView_create user payload now db)).
Proof.
  unfold MedicalRecordAddView_create, bind, query.
  destruct (MedicalRecordSerializer_run_validation db user payload)
    as [vd|e] eqn:Hv; [|apply effect_none].
  rewrite (MedicalRecordAddView_perform_create_validated db user payload vd
             now Hv).
  destruct (MedicalRecordSerializer_run_validation_Ok db user payload vd Hv)
    as ((pk & _ & Hfind) & _).
  apply find_patient_Some in Hfind.
  exact (effect_record db (RecordAttrs.patient vd) (RecordAttrs.symptoms vd)
           (RecordAttrs.diagnosis vd) (RecordAttrs.treatment vd) now
           (proj1 Hfind)).
Qed.

Lemma authenticate_Some db username password u :
  authenticate db username password = Some u ->
  exists name,
    username = Some name
    /\ password = Some (User.password u)
    /\ find (fun v => String.eqb (User.username v) name) (users db) = Some u.
Proof.
  unfold authenticate. intro H.
  destruct username as [name|]; [|discriminate H].
  destruct password as [pw|]; [|discriminate H].
  destruct (find _ (users db)) as [v|] eqn:Ef; [|discriminate H].
  destruct (String.eqb (User.password v) pw) eqn:Epw; [|discriminate H].
  inversion H; subst. apply String.eqb_eq in Epw. subst.
  exists name. split; [reflexivity|]. split; [reflexivity | exact Ef].
Qed.

(** [login] of a stored user in a database whose identity tables are in
    order writes nothing. *)
Lemma login_stored_user db u :
  identity_ok db -> In u (users db) -> login u db = (Ok tt, db).
Proof.
  intros Hok Hin.
  destruct (identity_ok_profile db u Hok Hin) as (p & Hp & Hpin & _).
  unfold login, User_save, post_save_User, create_user_profile,
    save_user_profile, bind, ret, query.
  rewrite Hp. apply Profile_save_stored;
    [apply (profile_ids_distinct db Hok) | exact Hpin].
Qed.

(** What [login_view] answers to the credentials of a stored user. *)
Lemma login_view_handler_authenticated db payload key u pr :
  identity_ok db ->
  authenticate db (LoginData.username payload) (LoginData.password payload)
  = Some u ->
  User_profile db u = Ok pr ->
  login_view_handler payload key db
  = match find (fun t => Token.user t =? User.id u) (tokens db) with
    | Some t =>
        (Ok (mkResponse HTTP_200_OK
               (login_body "Login successful" (Token.key t) (User.id u)
                           (User.username u) (Profile.role pr))), db)
    | None =>
        (Ok (mkResponse HTTP_200_OK
               (login_body "Login successful" key (User.id u)
                           (User.username u) (Profile.role pr))),
         with_token db (Token.mk key (User.id u)))
    end.
Proof.
  intros Hok Ha Hp.
  assert (Hin : In u (users db)).
  { destruct (authenticate_Some _ _ _ _ Ha) as (name & _ & _ & Hf).
    apply find_some in Hf. tauto. }
  unfold login_view_handler. rewrite Ha.
  unfold bind. rewrite (login_stored_user db u Hok Hin).
  unfold Token_objects_get_or_create, query, ret.
  unfold User_profile, find_profile in Hp.
  destruct (find _ (tokens db)) as [t|];
    unfold profile_role, User_profile, find_profile, result_bind; simpl;
    destruct (find _ (profiles db)) as [q|]; inversion Hp; reflexivity.
Qed.

Lemma login_view_handler_effect payload key db :
  identity_ok db -> effect db (snd (login_view_handler payload key db)).
Proof.
  intro Hok.
  destruct (authenticate db (LoginData.username payload)
                         (LoginData.password payload)) as [u|] eqn:Ha.
  - assert (Hin : In u (users db)).
    { destruct (authenticate_Some _ _ _ _ Ha) as (name & _ & _ & Hf).
      apply find_some in Hf. tauto. }
    destruct (identity_ok_profile db u Hok Hin) as (pr & Hp & _).
    rewrite (login_view_handler_authenticated db payload key u pr Hok Ha Hp).
    destruct (find _ (tokens db)) as [t|] eqn:Hf; simpl.
    + apply effect_none.
    + exact (effect_token db u key Hin Hf).
  - unfold login_view_handler. rewrite Ha. apply effect_none.
Qed.

Lemma dispatch_effect perms user h db :
  effect db (snd (h db)) -> effect db (snd (dispatch perms user h db)).
Proof.
  intro H. destruct (dispatch_snd perms user h db) as [E|E]; rewrite E;
    [apply effect_none | exact H].
Qed.

Lemma step_effect db db' : identity_ok db -> step db db' -> effect db db'.
Proof.
  intros Hok Hstep.
  destruct Hstep as [name email pw | name email pw | p r Hin | payload key
                    | payload key | user | user payload now | user pk
                    | user payload now | user pk].
  - unfold User_objects_create_user. rewrite (User_save_new_spec _ _ _ _ _ Hok).
    destruct (existsb _ _) eqn:E; [apply effect_none | apply effect_user, E].
  - unfold User_objects_create_superuser.
    rewrite (User_save_new_spec _ _ _ _ _ Hok).
    destruct (existsb _ _) eqn:E; [apply effect_none | apply effect_user, E].
  - apply effect_role, Hin.
  - apply dispatch_effect. rewrite (signup_handler_spec db payload key Hok).
    destruct (UserRegistrationSerializer_run_validation db payload) as [vd|e].
    + destruct (SignupAttrs.email vd) as [em|]; [|apply effect_none]. simpl.
      destruct (existsb _ _) eqn:E; [apply effect_none | apply effect_user, E].
    + destruct e; apply effect_none.
  - apply dispatch_effect, login_view_handler_effect, Hok.
  - apply dispatch_effect.
    unfold PatientListCreateView_list, bind, query.
    destruct (PatientListCreateView_get_queryset db user); apply effect_none.
  - apply dispatch_effect, PatientListCreateView_create_effect.
  - apply dispatch_effect.
    unfold PatientDetailView_retrieve, bind, query.
    destruct (PatientDetailView_get_object db user pk); apply effect_none.
  - apply dispatch_effect, MedicalRecordAddView_create_effect.
  - apply dispatch_effect.
    unfold PatientMedicalRecordListView_list, bind, query.
    destruct (PatientMedicalRecordListView_get_queryset db user pk);
      apply effect_none.
Qed.

(** Induction over the databases the application can be in, one effect at
    a time. *)
Lemma reachable_effect_ind (P : DB -> Prop) :
  P empty_db ->
  (forall db db', reachable db -> P db -> effect db db' -> P db') ->
  forall db, reachable db -> P db.
Proof.
  intros H0 Hstep db Hreach.
  induction Hreach as [|db db' Hreach IH Hs]; [exact H0|].
  apply (Hstep db db' Hreach IH).
  apply step_effect; [apply reachable_identity_ok, Hreach | exact Hs].
Qed.

(** ** Invariants of the reachable databases *)

Lemma NoDup_snoc {A} (l : list A) x : NoDup l -> ~ In x l -> NoDup (l ++ [x]).
Proof.
  intros Hnd Hx.
  apply Permutation_NoDup with (l := x :: l).
  - apply Permutation_cons_append.
  - constructor; assumption.
Qed.

Lemma incl_snoc_both {A} (l m : list A) x :
  incl l m -> incl (l ++ [x]) (m ++ [x]).
Proof.
  intros H y Hy. apply in_app_or in Hy. apply in_or_app.
  destruct Hy as [Hy|Hy]; [left; apply H, Hy | right; exact Hy].
Qed.

Lemma incl_snoc_right {A} (l m : list A) x : incl l m -> incl l (m ++ [x]).
Proof. intros H y Hy. apply in_or_app. left. apply H, Hy. Qed.

Lemma set_role_profile_users l p r :
  NoDup (map Profile.id l) -> In p l ->
  map Profile.user
      (map (fun q => if Profile.id q =? Profile.id p
                     then Profile.mk (Profile.id p) (Profile.user p) r
                     else q) l)
  = map Profile.user l.
Proof.
  intros Hnd Hin. rewrite map_map. apply map_ext_in. intros q Hq.
  destruct (Profile.id q =? Profile.id p) eqn:E; [|reflexivity].
  apply Z.eqb_eq in E. simpl.
  rewrite (NoDup_map_eq Profile.id l q p Hnd Hq Hin E). reflexivity.
Qed.

Lemma username_not_taken db name :
  existsb (fun u => String.eqb (User.username u) name) (users db) = false ->
  ~ In name (map User.username (users db)).
Proof.
  intros He Hin. apply in_map_iff in Hin. destruct Hin as (u & Hu & Hin).
  assert (Ht : existsb (fun u => String.eqb (User.username u) name) (users db)
               = true).
  { apply existsb_exists. exists u. split; [exact Hin|].
    apply String.eqb_eq, Hu. }
  rewrite He in Ht. discriminate Ht.
Qed.

Lemma token_user_not_found db uid :
  find (fun t => Token.user t =? uid) (tokens db) = None ->
  ~ In uid (map Token.user (tokens db)).
Proof.
  intros Hf Hin. apply in_map_iff in Hin. destruct Hin as (t & Ht & Hin).
  apply (find_none _ _ Hf) in Hin. apply Z.eqb_neq in Hin. tauto.
Qed.

Lemma reachable_identity_unique db : reachable db -> identity_unique db.
Proof.
  apply reachable_effect_ind.
  - split; constructor.
  - clear db. intros db db' Hreach [H1 H2 H3] Heff.
    pose proof (reachable_identity_ok db Hreach) as Hok.
    destruct Heff as [| name email pw su Hname | p r Hin
                     | u payload vd now Hv | p s d t now Hin | u key Hin Hf];
      try (split; assumption).
    + split; simpl; rewrite map_app; simpl; apply NoDup_snoc; trivial.
      * apply next_id_fresh.
      * apply username_not_taken, Hname.
      * intro Hin. apply (profiles_have_users db Hok) in Hin.
        exact (next_id_fresh _ Hin).
    + split; simpl; trivial.
      rewrite (set_role_profile_users _ p r (profile_ids_distinct db Hok) Hin).
      exact H3.
Qed.

Lemma reachable_care_ok db : reachable db -> care_ok db.
Proof.
  apply reachable_effect_ind.
  - split; simpl; try constructor. intros x [].
  - clear db. intros db db' Hreach [H1 H2 H3 H4] Heff.
    destruct Heff as [| name email pw su Hname | p r Hin
                     | u payload vd now Hv | p s d t now Hin | u key Hin Hf];
      try (split; assumption).
    + apply PatientSerializer_run_validation_Ok in Hv.
      destruct Hv as (_ & Hnb & Hlen & _ & Hpos & _ & _ & Hadb).
      split; simpl; trivial.
      * rewrite map_app. simpl. apply NoDup_snoc; [exact H1|].
        apply next_id_fresh.
      * apply Forall_app. split; [exact H2|].
        constructor; [|constructor]. unfold patient_valid. simpl. tauto.
      * rewrite map_app. simpl. apply incl_snoc_right, H4.
    + split; simpl; trivial.
      * rewrite map_app. simpl. apply NoDup_snoc; [exact H3|].
        apply next_id_fresh.
      * rewrite map_app. simpl. intros x Hx. apply in_app_or in Hx.
        destruct Hx as [Hx|[Hx|[]]]; [apply H4, Hx|].
        subst x. apply in_map, Hin.
Qed.

Lemma reachable_tokens_ok db : reachable db -> tokens_ok db.
Proof.
  apply reachable_effect_ind.
  - split; simpl; [constructor | intros x []].
  - clear db. intros db db' Hreach [H1 H2] Heff.
    destruct Heff as [| name email pw su Hname | p r Hin
                     | u payload vd now Hv | p s d t now Hin | u key Hin Hf];
      try (split; assumption).
    + split; simpl; trivial.
      rewrite map_app. simpl. apply incl_snoc_right, H2.
    + split; simpl; rewrite map_app; simpl.
      * apply NoDup_snoc; [exact H1 | apply token_user_not_found, Hf].
      * intros x Hx. apply in_app_or in Hx.
        destruct Hx as [Hx|[Hx|[]]]; [apply H2, Hx|].
        subst x. apply in_map, Hin.
Qed.

(** X10. In every database the application can be in, user ids are
    distinct, user names are distinct, and every user has exactly one
    profile. *)
Theorem users_unique_with_one_profile_each :
  forall db : DB,
    reachable db ->
    NoDup (map User.id (users db))
    /\ NoDup (map User.username (users db))
    /\ forall u : User.t,
         In u (users db) ->
         exists p : Profile.t,
           In p (profiles db)
           /\ Profile.user p = User.id u
           /\ forall q : Profile.t,
                In q (profiles db) -> Profile.user q = User.id u -> q = p.
Proof.
  intros db Hreach.
  destruct (reachable_identity_unique db Hreach) as [H1 H2 H3].
  pose proof (reachable_identity_ok db Hreach) as Hok.
  split; [exact H1|]. split; [exact H2|].
  intros u Hin.
  destruct (identity_ok_profile db u Hok Hin) as (p & _ & Hpin & Hpu).
  exists p. split; [exact Hpin|]. split; [exact Hpu|].
  intros q Hq Hqu.
  apply (NoDup_map_eq Profile.user (profiles db) q p H3 Hq Hpin). congruence.
Qed.

Lemma users_unique_with_one_profile_each_witness :
  NoDup (map User.username (users fixture))
  /\ exists p : Profile.t,
       In p (profiles fixture) /\ Profile.user p = User.id admin_user.
Proof.
  destruct (users_unique_with_one_profile_each fixture fixture_reachable)
    as (_ & Hnames & Hprof).
  split; [exact Hnames|].
  destruct (Hprof admin_user) as (p & Hin & Hu & _).
  - simpl. tauto.
  - exists p. split; [exact Hin | exact Hu].
Defined.

(** X11. In every database the application can be in, patient ids are
    distinct; every stored patient has an age greater than 0, a name that
    is not blank and at most 255 characters long and an address that is not
    blank; record ids are distinct; and the patient of every stored record
    is a stored patient. *)
Theorem stored_patients_and_records_are_sound :
  forall db : DB,
    reachable db ->
    NoDup (map Patient.id (patients db))
    /\ (forall p : Patient.t,
           In p (patients db) ->
           0 < Patient.age p
           /\ Patient.name p <> EmptyString
           /\ (String.length (Patient.name p) <= 255)%nat
           /\ Patient.address p <> EmptyString)
    /\ NoDup (map MedicalRecord.id (medical_records db))
    /\ (forall r : MedicalRecord.t,
           In r (medical_records db) ->
           exists p : Patient.t,
             In p (patients db)
             /\ find_patient db (MedicalRecord.patient r) = Some p).
Proof.
  intros db Hreach.
  destruct (reachable_care_ok db Hreach) as [H1 H2 H3 H4].
  split; [exact H1|]. split.
  { intros p Hin. rewrite Forall_forall in H2. exact (H2 p Hin). }
  split; [exact H3|].
  intros r Hr.
  assert (Hin : In (MedicalRecord.patient r) (map Patient.id (patients db))).
  { apply H4, in_map, Hr. }
  unfold find_patient.
  destruct (find _ (patients db)) as [p|] eqn:Hf.
  - exists p. split; [|reflexivity]. apply find_some in Hf. tauto.
  - exfalso. apply in_map_iff in Hin. destruct Hin as (p & Hp & Hpin).
    apply (find_none _ _ Hf) in Hpin. apply Z.eqb_neq in Hpin. tauto.
Qed.

Lemma stored_patients_and_records_are_sound_witness :
  0 < Patient.age patient3_doc2
  /\ exists p : Patient.t,
       find_patient fixture (MedicalRecord.patient record2_doc1) = Some p.
Proof.
  destruct (stored_patients_and_records_are_sound fixture fixture_reachable)
    as (_ & Hvalid & _ & Hfk).
  split.
  - apply (Hvalid patient3_doc2). simpl. tauto.
  - destruct (Hfk record2_doc1) as (p & _ & Hf).
    + simpl. tauto.
    + exists p. exact Hf.
Defined.

(** X12. In every database the application can be in, a user has at most
    one token, and every token belongs to a stored user. *)
Theorem at_most_one_token_per_user :
  forall db : DB,
    reachable db ->
    (forall t1 t2 : Token.t,
        In t1 (tokens db) -> In t2 (tokens db) ->
        Token.user t1 = Token.user t2 -> t1 = t2)
    /\ (forall t : Token.t,
           In t (tokens db) ->
           exists u : User.t, In u (users db) /\ User.id u = Token.user t).
Proof.
  intros db Hreach.
  destruct (reachable_tokens_ok db Hreach) as [H1 H2].
  split.
  - intros t1 t2 Ht1 Ht2.
    apply (NoDup_map_eq Token.user (tokens db) t1 t2 H1 Ht1 Ht2).
  - intros t Ht.
    assert (Hin : In (Token.user t) (map User.id (users db))).
    { apply H2, in_map, Ht. }
    apply in_map_iff in Hin. destruct Hin as (u & Hu & Hin).
    exists u. split; assumption.
Qed.


Lemma fixture_logged_in_reachable : reachable fixture_logged_in.
Proof.
  apply reachable_step with fixture; [exact fixture_reachable|].
  apply step_login.
Qed.

Lemma at_most_one_token_per_user_witness :
  tokens fixture_logged_in = [Token.mk "k1" 1]
  /\ exists u : User.t, In u (users fixture_logged_in) /\ User.id u = 1.
Proof.
  split; [reflexivity|].
  exact (proj2 (at_most_one_token_per_user fixture_logged_in
                  fixture_logged_in_reachable)
               (Token.mk "k1" 1) (or_introl eq_refl)).
Defined.


(** ** Login *)








(** ** Records of a patient *)

(** X16. Listing the records of a patient id no patient has is answered
    with status 500 and detail "Patient not found.", for every actor: the
    view raises a plain [APIException], whose status is 500 whatever [code]
    it is given. *)
Theorem list_records_unknown_patient_is_500 :
  forall (db : DB) (u : User.t) (pr : Profile.t) (pk : Z),
    User_profile db u = Ok pr ->
    (forall p, In p (patients db) -> Patient.id p <> pk) ->
    PatientMedicalRecordListView_get (Some u) pk db
    = (Returned patient_not_found_response, db).
Proof.
  intros db u pr pk Hp Hnone.
  unfold PatientMedicalRecordListView_get, dispatch, bind, query,
    PatientMedicalRecordListView_list, bind, query,
    PatientMedicalRecordListView_get_queryset, Patient_objects_get.
  rewrite (find_patient_None db pk Hnone).
  unfold PatientMedicalRecordListView_permission_classes. simpl.
  unfold IsPatientRecordOwnerOrAdmin_has_permission.
  rewrite (is_superuser_or_admin_role_actor db u pr Hp).
  rewrite (profile_role_actor db u pr Hp). simpl.
  unfold actor_is_admin.
  destruct (User.is_superuser u), (Profile.role pr); reflexivity.
Qed.

Lemma list_records_unknown_patient_is_500_witness :
  PatientMedicalRecordListView_get (Some doctor1) 999 fixture
  = (Returned patient_not_found_response, fixture).
Proof.
  exact (list_records_unknown_patient_is_500 fixture doctor1
           (Profile.mk 1 1 doctor) 999 eq_refl no_patient_999).
Defined.

(** X17. An admin or superuser who lists the records of an existing
    patient is answered 200 with exactly the records of that patient,
    newest first, and nothing is written. *)
Theorem list_records_for_admin :
  forall (db : DB) (u : User.t) (pr : Profile.t) (pk : Z) (p : Patient.t),
    User_profile db u = Ok pr ->
    actor_is_admin u pr = true ->
    find_patient db pk = Some p ->
    exists rs : list MedicalRecord.t,
      PatientMedicalRecordListView_get (Some u) pk db
      = (Returned (mkResponse HTTP_200_OK (record_list_body rs)), db)
      /\ (forall r, In r rs <->
                    In r (medical_records db) /\ MedicalRecord.patient r = pk)
      /\ Permutation rs
           (filter (fun r => MedicalRecord.patient r =? pk) (medical_records db))
      /\ StronglySorted (newer_first MedicalRecord.created_at) rs.
Proof.
  intros db u pr pk p Hp Hadm Hfind.
  exists (MedicalRecord_objects_filter_patient db p).
  pose proof (find_patient_Some db pk p Hfind) as [_ Hid].
  split.
  { rewrite (list_records_raises_unless_admin db u pr pk p Hp Hfind), Hadm.
    reflexivity. }
  unfold MedicalRecord_objects_filter_patient. rewrite Hid.
  split; [|split].
  - intro r. rewrite order_by_created_at_desc_In, filter_In, Z.eqb_eq. tauto.
  - apply order_by_created_at_desc_perm.
  - apply order_by_created_at_desc_sorted.
Qed.

Lemma list_records_for_admin_witness :
  exists rs : list MedicalRecord.t,
    PatientMedicalRecordListView_get (Some admin_user) 1 fixture
    = (Returned (mkResponse HTTP_200_OK (record_list_body rs)), fixture)
    /\ Permutation rs [record1_doc1; record2_doc1].
Proof.
  destruct (list_records_for_admin fixture admin_user (Profile.mk 3 3 admin)
              1 patient1_doc1 eq_refl eq_refl eq_refl)
    as (rs & Hget & _ & Hperm & _).
  exists rs. split; [exact Hget | exact Hperm].
Defined.

(** X18. [IsPatientRecordOwnerOrAdmin.has_object_permission] on a medical
    record, the object its comment names: for every actor the decision is
    made without raising, and it allows exactly the admins, the superusers
    and the creator of the record's patient. *)
Theorem record_permission_follows_the_patient :
  forall (db : DB) (u : User.t) (pr : Profile.t) (r : MedicalRecord.t)
         (p : Patient.t),
    User_profile db u = Ok pr ->
    find_patient db (MedicalRecord.patient r) = Some p ->
    IsPatientRecordOwnerOrAdmin_has_object_permission
      db (Some u) (MedicalRecordObj r)
    = Ok (actor_is_admin u pr || owns u p).
Proof.
  intros db u pr r p Hp Hfind.
  unfold IsPatientRecordOwnerOrAdmin_has_object_permission.
  rewrite (is_superuser_or_admin_role_actor db u pr Hp). simpl.
  unfold Patient_objects_get. rewrite Hfind.
  destruct (actor_is_admin u pr); reflexivity.
Qed.

Lemma record_permission_follows_the_patient_witness :
  IsPatientRecordOwnerOrAdmin_has_object_permission
    fixture (Some doctor2) (MedicalRecordObj record1_doc1) = Ok false
  /\ IsPatientRecordOwnerOrAdmin_has_object_permission
       fixture (Some doctor1) (MedicalRecordObj record1_doc1) = Ok true.
Proof.
  split.
  - exact (record_permission_follows_the_patient fixture doctor2
             (Profile.mk 2 2 doctor) record1_doc1 patient1_doc1
             eq_refl eq_refl).
  - exact (record_permission_follows_the_patient fixture doctor1
             (Profile.mk 1 1 doctor) record1_doc1 patient1_doc1
             eq_refl eq_refl).
Defined.

(** ** What requests write *)

(** X19. The three reading endpoints never write: whatever the actor, the
    argument and the outcome, the database after the request is the
    database before it. *)
Theorem read_requests_write_nothing :
  forall (db : DB) (user : option User.t) (pk : Z),
    snd (PatientListCreateView_get user db) = db
    /\ snd (PatientDetailView_get user pk db) = db
    /\ snd (PatientMedicalRecordListView_get user pk db) = db.
Proof.
  intros db user pk. split; [|split].
  - destruct (dispatch_snd PatientListCreateView_permission_classes user
                (PatientListCreateView_list user) db) as [E|E];
      unfold PatientListCreateView_get; rewrite E; [reflexivity|].
    unfold PatientListCreateView_list, bind, query.
    destruct (PatientListCreateView_get_queryset db user); reflexivity.
  - destruct (dispatch_snd PatientDetailView_permission_classes user
                (PatientDetailView_retrieve user pk) db) as [E|E];
      unfold PatientDetailView_get; rewrite E; [reflexivity|].
    unfold PatientDetailView_retrieve, bind, query.
    destruct (PatientDetailView_get_object db user pk); reflexivity.
  - destruct (dispatch_snd PatientMedicalRecordListView_permission_classes
                user (PatientMedicalRecordListView_list user pk) db) as [E|E];
      unfold PatientMedicalRecordListView_get; rewrite E; [reflexivity|].
    unfold PatientMedicalRecordListView_list, bind, query.
    destruct (PatientMedicalRecordListView_get_queryset db user pk);
      reflexivity.
Qed.

Lemma User_profile_Raise db u e :
  User_profile db u = Raise e -> e = DoesNotExist "User has no profile.".
Proof.
  unfold User_profile. destruct (find_profile db (User.id u)); intro H;
    [discriminate H | inversion H; reflexivity].
Qed.

Lemma MedicalRecordSerializer_run_validation_cases db u pr payload :
  User_profile db u = Ok pr ->
  (exists vd, MedicalRecordSerializer_run_validation db (Some u) payload = Ok vd)
  \/ (exists errs,
        MedicalRecordSerializer_run_validation db (Some u) payload
        = Raise (ValidationError (vdict errs))).
Proof.
  intro Hp.
  destruct payload as [[pk|] [s|] [d|] [t|]];
    unfold MedicalRecordSerializer_run_validation,
      PrimaryKeyRelatedField_Patient, MedicalRecordSerializer_validate_patient,
      CharField, invalid;
    rewrite (profile_role_actor db u pr Hp);
    unfold run_field, result_bind; simpl; break_match; eauto.
Qed.

(** X20. The two creating endpoints write all or nothing: either the
    request is answered 201 and exactly the row in the answer is appended
    to its table, or it is answered otherwise (or not at all) and the
    database is left as it was. *)
Theorem create_requests_write_all_or_nothing :
  forall (db : DB) (user : option User.t) (patient_data : PatientData.t)
         (record_data : RecordData.t) (now : Z),
    ((exists p : Patient.t,
         PatientListCreateView_post user patient_data now db
         = (Returned (mkResponse HTTP_201_CREATED (patient_body p)),
            with_patient db p))
     \/ (is_created (fst (PatientListCreateView_post user patient_data now db))
         = false
         /\ snd (PatientListCreateView_post user patient_data now db) = db))
    /\
    ((exists r : MedicalRecord.t,
         MedicalRecordAddView_post user record_data now db
         = (Returned (mkResponse HTTP_201_CREATED (record_body r)),
            with_record db r))
     \/ (is_created (fst (MedicalRecordAddView_post user record_data now db))
         = false
         /\ snd (MedicalRecordAddView_post user record_data now db) = db)).
Proof.
  intros db user patient_data record_data now.
  destruct user as [u|]; [|split; right; split; reflexivity].
  destruct (User_profile db u) as [pr|e] eqn:Hp.
  2:{ apply User_profile_Raise in Hp as He. subst e.
      split; right.
      - unfold PatientListCreateView_post, dispatch, bind, query. simpl.
        unfold IsDoctor_has_permission, profile_role. simpl. rewrite Hp.
        split; reflexivity.
      - unfold MedicalRecordAddView_post, dispatch, bind, query. simpl.
        unfold IsDoctor_has_permission, profile_role. simpl. rewrite Hp.
        split; reflexivity. }
  split.
  - rewrite (PatientListCreateView_post_actor db u pr patient_data now Hp).
    destruct (PatientSerializer_run_validation_cases patient_data)
      as [[vd Hv]|[errs Hv]]; rewrite Hv.
    + destruct (User.is_superuser u || Role_eqb (Profile.role pr) doctor).
      * left. eexists. reflexivity.
      * right. split; reflexivity.
    + right. split; reflexivity.
  - unfold MedicalRecordAddView_post, dispatch, bind, query,
      MedicalRecordAddView_permission_classes. simpl check_permissions.
    rewrite (IsDoctor_has_permission_actor db u pr Hp).
    destruct (Role_eqb (Profile.role pr) doctor); simpl;
      [|right; split; reflexivity].
    unfold MedicalRecordAddView_create, bind, query.
    destruct (MedicalRecordSerializer_run_validation_cases db u pr record_data Hp)
      as [[vd Hv]|[errs Hv]]; rewrite Hv.
    + rewrite (MedicalRecordAddView_perform_create_validated db (Some u)
                 record_data vd now Hv).
      left. eexists. reflexivity.
    + right. split; reflexivity.
Qed.

(** ** Listing and retrieving patients *)

Lemma PatientListCreateView_get_actor db u pr :
  User_profile db u = Ok pr ->
  PatientListCreateView_get (Some u) db
  = (Returned (mkResponse HTTP_200_OK
                 (patient_list_body
                    (order_by_created_at_desc Patient.created_at
                       (visible_patients db u pr)))), db).
Proof.
  intro Hp.
  unfold PatientListCreateView_get, dispatch, PatientListCreateView_list,
    bind, query, ret.
  rewrite (check_permissions_PatientListCreateView db u pr Hp).
  rewrite (get_queryset_actor db u pr Hp).
  unfold visible_patients, Patient_objects_all,
    Patient_objects_filter_created_by, owns.
  destruct (actor_is_admin u pr); reflexivity.
Qed.

Lemma PatientDetailView_get_actor db u pr pk p :
  User_profile db u = Ok pr ->
  find_patient db pk = Some p ->
  PatientDetailView_get (Some u) pk db
  = (Returned (if actor_is_admin u pr || owns u p
               then mkResponse HTTP_200_OK (patient_body p)
               else forbidden_response), db).
Proof.
  intros Hp Hfind.
  unfold PatientDetailView_get, dispatch, bind, query,
    PatientDetailView_retrieve, PatientDetailView_get_object, bind, query.
  rewrite check_permissions_PatientDetailView, Hfind.
  unfold PatientDetailView_permission_classes. simpl.
  rewrite (IsOwnerOrAdmin_has_object_permission_actor db u pr Hp).
  simpl. destruct (actor_is_admin u pr || owns u p); reflexivity.
Qed.

Lemma find_patient_stored db p :
  NoDup (map Patient.id (patients db)) -> In p (patients db) ->
  find_patient db (Patient.id p) = Some p.
Proof.
  intros Hnd Hin. unfold find_patient.
  destruct (find _ (patients db)) as [q|] eqn:Hf.
  - apply find_some in Hf. destruct Hf as [Hq Heq]. apply Z.eqb_eq in Heq.
    rewrite (NoDup_map_eq Patient.id (patients db) q p Hnd Hq Hin Heq).
    reflexivity.
  - apply (find_none _ _ Hf) in Hin. rewrite Z.eqb_refl in Hin.
    discriminate Hin.
Qed.

(** X21. Listing and retrieving agree: in every database the application
    can be in and for every stored user, the patients in the user's list
    are exactly the stored patients that the same user retrieves with 200
    by their id.  No row is listed and then refused, none is readable but
    left out of the list. *)
Theorem listed_patients_are_the_retrievable_ones :
  forall (db : DB) (u : User.t) (p : Patient.t),
    reachable db ->
    In u (users db) ->
    (In p (listed_patients (fst (PatientListCreateView_get (Some u) db)))
     <->
     In p (patients db)
     /\ fst (PatientDetailView_get (Some u) (Patient.id p) db)
        = Returned (mkResponse HTTP_200_OK (patient_body p))).
Proof.
  intros db u p Hreach Hin.
  destruct (identity_ok_profile db u (reachable_identity_ok db Hreach) Hin)
    as (pr & Hp & _).
  pose proof (patient_ids_distinct db (reachable_care_ok db Hreach)) as Hnd.
  rewrite (PatientListCreateView_get_actor db u pr Hp). simpl.
  rewrite order_by_created_at_desc_In.
  assert (Hvis : In p (visible_patients db u pr)
                 <-> In p (patients db)
                     /\ actor_is_admin u pr || owns u p = true).
  { unfold visible_patients. destruct (actor_is_admin u pr); simpl.
    - tauto.
    - rewrite filter_In. tauto. }
  rewrite Hvis. split; intros [Hpin H]; (split; [exact Hpin|]).
  - rewrite (PatientDetailView_get_actor db u pr _ p Hp
               (find_patient_stored db p Hnd Hpin)), H. reflexivity.
  - rewrite (PatientDetailView_get_actor db u pr _ p Hp
               (find_patient_stored db p Hnd Hpin)) in H.
    destruct (actor_is_admin u pr || owns u p); [reflexivity|].
    simpl in H. discriminate H.
Qed.

Lemma listed_patients_are_the_retrievable_ones_witness :
  In patient2_doc1
     (listed_patients (fst (PatientListCreateView_get (Some doctor1) fixture)))
  /\ ~ In patient3_doc2
       (listed_patients (fst (PatientListCreateView_get (Some doctor1)
                                                        fixture))).
Proof.
  split.
  - apply (proj2 (listed_patients_are_the_retrievable_ones fixture doctor1
                    patient2_doc1 fixture_reachable (or_introl eq_refl))).
    split; [simpl; tauto | reflexivity].
  - intro H.
    apply (proj1 (listed_patients_are_the_retrievable_ones fixture doctor1
                    patient3_doc2 fixture_reachable (or_introl eq_refl))) in H.
    destruct H as [_ H]. discriminate H.
Defined.

(** ** A user without a profile *)

(** X22. For a superuser whose profile row is missing, the endpoints
    differ by which attribute their permission reads first.  Retrieving a
    patient and listing a patient's records read [is_superuser] first and
    answer 200.  Listing patients, creating a patient and adding a record
    ask [IsDoctor] first, which reads [user.profile]: the request ends in
    an uncaught [RelatedObjectDoesNotExist] and writes nothing, although
    [IsAdmin] alone would have let the superuser in. *)
Theorem superuser_without_profile :
  forall (db : DB) (u : User.t) (pk : Z) (p : Patient.t)
         (patient_data : PatientData.t) (record_data : RecordData.t) (now : Z),
    User.is_superuser u = true ->
    find_profile db (User.id u) = None ->
    find_patient db pk = Some p ->
    IsAdmin_has_permission db (Some u) = Ok true
    /\ PatientDetailView_get (Some u) pk db
       = (Returned (mkResponse HTTP_200_OK (patient_body p)), db)
    /\ PatientMedicalRecordListView_get (Some u) pk db
       = (Returned (mkResponse HTTP_200_OK
                      (record_list_body
                         (MedicalRecord_objects_filter_patient db p))), db)
    /\ PatientListCreateView_get (Some u) db
       = (Uncaught (DoesNotExist "User has no profile."), db)
    /\ PatientListCreateView_post (Some u) patient_data now db
       = (Uncaught (DoesNotExist "User has no profile."), db)
    /\ MedicalRecordAddView_post (Some u) record_data now db
       = (Uncaught (DoesNotExist "User has no profile."), db).
Proof.
  intros db u pk p patient_data record_data now Hs Hnone Hfind.
  repeat split.
  - unfold IsAdmin_has_permission, is_superuser_or_admin_role. simpl.
    rewrite Hs. reflexivity.
  - unfold PatientDetailView_get, dispatch, bind, query,
      PatientDetailView_retrieve, PatientDetailView_get_object, bind, query.
    simpl check_permissions. cbv iota. rewrite Hfind.
    unfold PatientDetailView_permission_classes. simpl.
    unfold IsOwnerOrAdmin_has_object_permission, is_superuser_or_admin_role.
    simpl. rewrite Hs. reflexivity.
  - unfold PatientMedicalRecordListView_get, dispatch, bind, query,
      PatientMedicalRecordListView_list, bind, query,
      PatientMedicalRecordListView_get_queryset, Patient_objects_get.
    rewrite Hfind.
    unfold PatientMedicalRecordListView_permission_classes. simpl.
    unfold IsPatientRecordOwnerOrAdmin_has_permission,
      IsPatientRecordOwnerOrAdmin_has_object_permission,
      is_superuser_or_admin_role. simpl. rewrite Hs. reflexivity.
  - unfold PatientListCreateView_get, dispatch, bind, query. simpl.
    unfold IsDoctor_has_permission, profile_role, User_profile. simpl.
    rewrite Hnone. reflexivity.
  - unfold PatientListCreateView_post, dispatch, bind, query. simpl.
    unfold IsDoctor_has_permission, profile_role, User_profile. simpl.
    rewrite Hnone. reflexivity.
  - unfold MedicalRecordAddView_post, dispatch, bind, query. simpl.
    unfold IsDoctor_has_permission, profile_role, User_profile. simpl.
    rewrite Hnone. reflexivity.
Qed.

Lemma superuser_without_profile_witness :
  fst (PatientDetailView_get (Some root_user) 1 legacy_db)
  = Returned (mkResponse HTTP_200_OK
                (patient_body (Patient.mk 1 "Patient A" 30 Male
                                          "123 Main St" 1 100)))
  /\ fst (PatientListCreateView_get (Some root_user) legacy_db)
     = Uncaught (DoesNotExist "User has no profile.").
Proof.
  destruct (superuser_without_profile legacy_db root_user 1
              (Patient.mk 1 "Patient A" 30 Male "123 Main St" 1 100)
              new_patient_data (record_for_patient 1) 200
              eq_refl eq_refl eq_refl)
    as (_ & Hget & _ & Hlist & _).
  split; [rewrite Hget | rewrite Hlist]; reflexivity.
Defined.

(** ** Signup, then login *)





(** ** Routing *)

Lemma strip_prefix_app l s : strip_prefix l (l ++ s) = Some s.
Proof.
  induction l as [|a l IH]; simpl.
  - destruct s; reflexivity.
  - rewrite Ascii.eqb_refl. exact IH.
Qed.

Lemma strip_prefix_Some l s rest :
  strip_prefix l s = Some rest -> s = l ++ rest.
Proof.
  revert s. induction l as [|a l IH]; intros s H.
  - destruct s; simpl in H; inversion H; reflexivity.
  - destruct s as [|b s]; simpl in H; [discriminate H|].
    destruct (Ascii.eqb a b) eqn:E; [|discriminate H].
    apply Ascii.eqb_eq in E. subst b. simpl. f_equal. apply IH, H.
Qed.

Lemma span_digits_no_digit_ahead rest :
  no_digit_ahead rest -> span_digits rest = (EmptyString, rest).
Proof. destruct rest as [|c rest]; simpl; intro H; [|rewrite H]; reflexivity. Qed.

Lemma span_digits_string_of_uint d rest :
  no_digit_ahead rest ->
  span_digits (NilEmpty.string_of_uint d ++ rest)
  = (NilEmpty.string_of_uint d, rest).
Proof.
  intro H. induction d; simpl;
    [apply span_digits_no_digit_ahead, H | ..];
    change (is_digit _) with true; cbv iota; rewrite IHd; reflexivity.
Qed.

Lemma str_of_pk_not_empty pk : str_of_pk pk <> EmptyString.
Proof.
  unfold str_of_pk. intro H.
  pose proof (NilEmpty.usu (N.to_uint pk)) as Hu. rewrite H in Hu.
  simpl in Hu. inversion Hu as [Hnil].
  pose proof (DecimalN.Unsigned.of_to pk) as Hof. rewrite <- Hnil in Hof.
  simpl in Hof. subst pk. discriminate Hnil.
Qed.

Lemma to_python_int_str_of_pk pk : to_python_int (str_of_pk pk) = Some (Z.of_N pk).
Proof.
  unfold to_python_int, str_of_pk. rewrite NilEmpty.usu. simpl.
  rewrite DecimalN.Unsigned.of_to. reflexivity.
Qed.

Lemma match_route_converter pk route rest :
  no_digit_ahead rest ->
  match_route (IntConverter :: route) (str_of_pk pk ++ rest)
  = option_map (cons (Z.of_N pk)) (match_route route rest).
Proof.
  intro H. cbn [match_route].
  unfold str_of_pk at 1. rewrite (span_digits_string_of_uint _ _ H).
  fold (str_of_pk pk). rewrite to_python_int_str_of_pk.
  destruct (str_of_pk pk) eqn:E; [destruct (str_of_pk_not_empty pk E)|].
  destruct (match_route route rest); reflexivity.
Qed.

Lemma match_route_literal l path args :
  match_route [Lit l] path = Some args -> path = l /\ args = [].
Proof.
  cbn [match_route]. intro H.
  destruct (strip_prefix l path) as [rest|] eqn:E; [|discriminate H].
  apply strip_prefix_Some in E. destruct rest; [|discriminate H].
  inversion H. subst. split; [|reflexivity].
  clear. induction l as [|a l IH]; simpl; [reflexivity|]. f_equal. exact IH.
Qed.

Lemma match_route_Lit_cons l route path args :
  match_route (Lit l :: route) path = Some args ->
  exists rest, path = (l ++ rest)%string /\ match_route route rest = Some args.
Proof.
  cbn [match_route]. intro H.
  destruct (strip_prefix l path) as [rest|] eqn:E; [|discriminate H].
  exists rest. split; [apply strip_prefix_Some, E | exact H].
Qed.

(** The resolver on a path below [patients/]: the two entries before it
    cannot match, the other four are tried on the remainder. *)
Lemma resolve_patients x :
  resolve ("patients/" ++ x)
  = match x with
    | EmptyString => Some (url_patient_list_create, [])
    | String _ _ =>
        match match_route [IntConverter; Lit "/"] x with
        | Some args => Some (url_patient_detail, args)
        | None =>
            match match_route [Lit "records/add/"] x with
            | Some args => Some (url_medical_record_add, args)
            | None =>
                match match_route [IntConverter; Lit "/records/"] x with
                | Some args => Some (url_patient_medical_records, args)
                | None => None
                end
            end
        end
    end.
Proof. destruct x; reflexivity. Qed.

Lemma span_digits_head x c ds rest :
  span_digits x = (String c ds, rest) ->
  exists x', x = String c x' /\ is_digit c = true.
Proof.
  destruct x as [|b x]; simpl; [discriminate|].
  destruct (is_digit b) eqn:E; [|discriminate].
  destruct (span_digits x) as [ds' rest']. intro H. inversion H; subst.
  exists x. split; [reflexivity | exact E].
Qed.

(** A path that goes on with a digit is not [records/add/]. *)
Lemma match_route_add_on_digit c x :
  is_digit c = true -> match_route [Lit "records/add/"] (String c x) = None.
Proof.
  intro Hd. simpl.
  destruct c as [[|] [|] [|] [|] [|] [|] [|] [|]];
    try reflexivity; discriminate Hd.
Qed.

Lemma str_of_pk_head pk c s :
  str_of_pk pk = String c s -> is_digit c = true.
Proof.
  intro E.
  pose proof (span_digits_string_of_uint (N.to_uint pk) EmptyString I) as Hs.
  fold (str_of_pk pk) in Hs. rewrite E in Hs.
  destruct (span_digits_head _ _ _ _ Hs) as (x' & _ & Hd). exact Hd.
Qed.

(** X24. [reverse] and the resolver are inverse on the routes of
    [urlpatterns]: the path [reverse] builds for an entry and a primary key
    resolves to that entry, with that key as its argument where the route
    has one. *)
Theorem resolve_reverse :
  forall (name : UrlName) (pk : N),
    resolve (reverse name pk) = Some (name, kwargs name pk).
Proof.
  intros name pk.
  destruct name; try reflexivity; unfold reverse, kwargs;
    rewrite resolve_patients, !match_route_converter by reflexivity;
    destruct (str_of_pk pk) as [|c s] eqn:E;
    try destruct (str_of_pk_not_empty pk E);
    cbn [append]; try rewrite (match_route_add_on_digit c _
                                 (str_of_pk_head pk c s E));
    reflexivity.
Qed.

(** X25. No path is claimed by two entries of [urlpatterns]: whichever
    entry matches a path is the one the resolver answers with, so the order
    of the entries does not matter.  In particular [patients/records/add/]
    is never taken for the detail or the records route of a patient. *)
Theorem resolve_is_unambiguous :
  forall (path : string) (route : list Part) (name : UrlName)
         (args : list Z),
    In (route, name) urlpatterns ->
    match_route route path = Some args ->
    resolve path = Some (name, args).
Proof.
  intros path route name args Hin Hm.
  simpl in Hin.
  destruct Hin as [H|[H|[H|[H|[H|[H|[]]]]]]]; inversion H; subst; clear H.
  - apply match_route_literal in Hm. destruct Hm; subst. reflexivity.
  - apply match_route_literal in Hm. destruct Hm; subst. reflexivity.
  - apply match_route_literal in Hm. destruct Hm; subst. reflexivity.
  - apply match_route_Lit_cons in Hm. destruct Hm as (x & -> & Hm).
    rewrite resolve_patients.
    destruct x as [|c x]; [discriminate Hm|]. rewrite Hm. reflexivity.
  - apply match_route_literal in Hm. destruct Hm; subst. reflexivity.
  - apply match_route_Lit_cons in Hm. destruct Hm as (x & -> & Hm).
    rewrite resolve_patients.
    destruct x as [|c x]; [discriminate Hm|].
    assert (Hdetail : match_route [IntConverter; Lit "/"] (String c x) = None
                      /\ match_route [Lit "records/add/"] (String c x) = None).
    { cbn [match_route] in Hm |- *.
      destruct (span_digits (String c x)) as [ds rest] eqn:Hs.
      destruct ds as [|d ds]; [discriminate Hm|].
      destruct (to_python_int (String d ds)) as [pk|]; [|discriminate Hm].
      destruct (strip_prefix "/records/" rest) as [rest'|] eqn:Hr;
        [|discriminate Hm].
      apply strip_prefix_Some in Hr. subst rest.
      destruct rest' as [|? ?]; [|discriminate Hm].
      split; [reflexivity|].
      apply span_digits_head in Hs. destruct Hs as (x' & Hx & Hd).
      inversion Hx; subst.
      exact (match_route_add_on_digit d x' Hd). }
    destruct Hdetail as [Hd Ha]. rewrite Hd, Ha, Hm. reflexivity.
Qed.

Lemma resolve_is_unambiguous_witness :
  resolve "patients/records/add/" = Some (url_medical_record_add, [])
  /\ resolve "patients/12/records/" = Some (url_patient_medical_records, [12]).
Proof.
  split.
  - apply (resolve_is_unambiguous "patients/records/add/"
             [Lit "patients/records/add/"] url_medical_record_add []).
    + simpl. tauto.
    + reflexivity.
  - apply (resolve_is_unambiguous "patients/12/records/"
             [Lit "patients/"; IntConverter; Lit "/records/"]
             url_patient_medical_records [12]).
    + simpl. tauto.
    + reflexivity.
Defined.

(** ** Signup: field errors *)

Lemma UserRegistrationSerializer_field_errors db payload :
  SignupData.username payload = None
  \/ SignupData.password payload = None
  \/ SignupData.password2 payload = None
  \/ SignupData.role payload = None
  \/ (exists s, SignupData.role payload = Some s /\ role_of_choice s = None) ->
  exists errs : FieldErrors,
    UserRegistrationSerializer_run_validation db payload
    = Raise (ValidationError (vdict errs))
    /\ (SignupData.username payload = None ->
        In ("username", [Code "required"]) errs)
    /\ (SignupData.password payload = None ->
        In ("password", [Code "required"]) errs)
    /\ (SignupData.password2 payload = None ->
        In ("password2", [Code "required"]) errs)
    /\ (SignupData.role payload = None ->
        In ("role", [Code "required"]) errs)
    /\ ((exists s, SignupData.role payload = Some s
                   /\ role_of_choice s = None) ->
        In ("role", [Code "invalid_choice"]) errs).
Proof.
  intro H.
  destruct payload as [[n|] em [p|] [p2|] [r|]]; simpl in *;
    unfold UserRegistrationSerializer_run_validation,
      UserRegistrationSerializer_to_internal_value,
      UniqueValidator_username, CharField, ChoiceField, invalid,
      run_field, result_bind; simpl;
    try (destruct (role_of_choice r) as [ro|] eqn:Hr);
    try (exfalso;
         destruct H as [H|[H|[H|[H|(s & Hs & Hn)]]]];
         try discriminate H; inversion Hs; subst; congruence);
    break_match;
    (eexists; split; [reflexivity|]);
    repeat split; intro Hx;
    try discriminate Hx;
    try (destruct Hx as (s & Hs & Hn); inversion Hs; subst; congruence);
    simpl; tauto.
Qed.

(** X26. A signup that leaves out the user name, a password or the role,
    or names a role that is not one of the choices, is answered 400 with
    the errors of all its fields at once -- "required" under each missing
    field, "invalid_choice" under [role] -- and nothing is written. *)
Theorem signup_reports_every_bad_field :
  forall (db : DB) (payload : SignupData.t) (key : string),
    SignupData.username payload = None
    \/ SignupData.password payload = None
    \/ SignupData.password2 payload = None
    \/ SignupData.role payload = None
    \/ (exists s, SignupData.role payload = Some s
                  /\ role_of_choice s = None) ->
    exists errs : FieldErrors,
      signup payload key db
      = (Returned (mkResponse HTTP_400_BAD_REQUEST (errors_body errs None)),
         db)
      /\ (SignupData.username payload = None ->
          In ("username", [Code "required"]) errs)
      /\ (SignupData.password payload = None ->
          In ("password", [Code "required"]) errs)
      /\ (SignupData.password2 payload = None ->
          In ("password2", [Code "required"]) errs)
      /\ (SignupData.role payload = None ->
          In ("role", [Code "required"]) errs)
      /\ ((exists s, SignupData.role payload = Some s
                     /\ role_of_choice s = None) ->
          In ("role", [Code "invalid_choice"]) errs).
Proof.
  intros db payload key H.
  destruct (UserRegistrationSerializer_field_errors db payload H)
    as (errs & Hv & Hrest).
  exists errs. split; [|exact Hrest].
  unfold signup, dispatch, bind, query, signup_handler. simpl check_permissions.
  cbv iota. rewrite Hv. reflexivity.
Qed.

Lemma signup_reports_every_bad_field_witness :
  exists errs : FieldErrors,
    signup (SignupData.mk (Some "nurse1") None None (Some "pw") (Some "nurse"))
           "k" fixture
    = (Returned (mkResponse HTTP_400_BAD_REQUEST (errors_body errs None)),
       fixture)
    /\ In ("password", [Code "required"]) errs
    /\ In ("role", [Code "invalid_choice"]) errs.
Proof.
  destruct (signup_reports_every_bad_field fixture
              (SignupData.mk (Some "nurse1") None None (Some "pw")
                             (Some "nurse")) "k"
              (or_intror (or_introl eq_refl)))
    as (errs & Hs & _ & Hp & _ & _ & Hr).
  exists errs. split; [exact Hs|]. split.
  - apply Hp. reflexivity.
  - apply Hr. exists "nurse". split; reflexivity.
Defined.
